(** * action-setup-qt: the installer of [src/installer.ts]

    A shallow embedding of the class [Installer]: its constructor, the
    temporary-directory fallback, the module list of the installer script,
    the test policy, and the two asynchronous methods [getQt] and
    [acquireQt] as programs over the calls they make to the outside
    (tool cache, file system, process execution, platform hooks). *)

From Stdlib Require Import String Ascii List Bool Lia.
From stdpp Require Import base strings gmap.
Import ListNotations.

Local Open Scope string_scope.
Local Open Scope list_scope.

(** ** JavaScript strings *)

Module JS.

(** [s.includes(sub)] *)
Fixpoint includes (sub s : string) : bool :=
  String.prefix sub s ||
  match s with
  | EmptyString => false
  | String _ s' => includes sub s'
  end.

(** [s.split(sep)] for a separator of one character: the segments between
    the separators, empty ones included; the empty string has one (empty)
    segment. *)
Fixpoint split (sep : ascii) (s : string) : list string :=
  match s with
  | EmptyString => [EmptyString]
  | String c s' =>
      if Ascii.eqb c sep then EmptyString :: split sep s'
      else match split sep s' with
           | [] => [String c EmptyString]
           | seg :: rest => String c seg :: rest
           end
  end.

(** [s.replace(/c/g, by)] for a pattern that is one literal character. *)
Fixpoint replace_all (c : ascii) (by_ : string) (s : string) : string :=
  match s with
  | EmptyString => EmptyString
  | String d s' =>
      if Ascii.eqb d c then by_ +:+ replace_all c by_ s'
      else String d (replace_all c by_ s')
  end.

(** [s.substr(n)]: the string from index [n] on. *)
Fixpoint substr (n : nat) (s : string) : string :=
  match n, s with
  | O, _ => s
  | S n', String _ s' => substr n' s'
  | S _, EmptyString => EmptyString
  end.

(** [String(b)] *)
Definition String_of_bool (b : bool) : string :=
  if b then "true" else "false".

(** Truthiness of a string: only the empty string is falsy. *)
Definition truthy (s : string) : bool :=
  match s with EmptyString => false | _ => true end.

(** Truthiness of a [string | null] value. *)
Definition truthy_opt (o : option string) : bool :=
  match o with Some s => truthy s | None => false end.

(** [o || d] for [o : string | undefined]. *)
Definition or_else (o : option string) (d : string) : string :=
  match o with
  | Some s => if truthy s then s else d
  | None => d
  end.

End JS.

(** ** The host: [os], [process.env] and [path] of Node *)

Class Node := {
  os_platform : string;                     (* os.platform() *)
  process_env : string -> option string;    (* process.env[name] *)
  path_join : list string -> string;        (* path.join(...segments) *)
  path_resolve : string -> string           (* path.resolve(p) *)
}.

(** ** Platforms *)

(** The five implementations of [IPlatform] the constructor chooses from,
    with the arguments they are built with. *)
Inductive IPlatform : Type :=
| AndroidPlatform (platform : string)
| LinuxPlatform (platform : string)
| MingwPlatform (platform version : string)
| MsvcPlatform (platform version : string)
| MacosPlatform (platform : string).

(** Modelled from the spec: the field [platform] of an [IPlatform] (the
    platform classes are not among the sources) holds the platform key the
    instance was built with. *)
Definition platform_of (p : IPlatform) : string :=
  match p with
  | AndroidPlatform k | LinuxPlatform k | MacosPlatform k => k
  | MingwPlatform k _ | MsvcPlatform k _ => k
  end.

(** The naming methods of [IPlatform], and the script builder of
    [qt-installer-script-base]: pure functions implemented outside
    [installer.ts], taken as parameters. *)
Class Naming := {
  qmakeName : IPlatform -> string;
  makeName : IPlatform -> string;
  installerName : IPlatform -> string;
  installPlatform : IPlatform -> string;
  extraPackages : IPlatform -> option (list string);
  testFlags : IPlatform -> string;
  qtScript_generateScript : string -> list string -> string
}.

(** ** The installer object *)

Record Installer := {
  version : string;
  platform : IPlatform;
  tempDir : string
}.

Section Pure.

Context {node : Node} {naming : Naming}.

(** [initTempDir] *)
Definition initTempDir (platform : string) : string :=
  let tempDirectory := JS.or_else (process_env "RUNNER_TEMP") "" in
  if negb (JS.truthy tempDirectory) then
    let baseLocation :=
      if String.eqb platform "win32" then
        JS.or_else (process_env "USERPROFILE") "C:\"
      else if String.eqb platform "darwin" then "/Users"
      else "/home" in
    path_join [baseLocation; "actions"; "temp"]
  else tempDirectory.

(** The constructor: [inr] the object, or [inl] the thrown message. *)
Definition new_Installer (version platform : string) : string + Installer :=
  let tempDir := initTempDir platform in
  let mk p := inr {| version := version; platform := p; tempDir := tempDir |} in
  if String.eqb os_platform "linux" then
    if JS.includes "android" platform then mk (AndroidPlatform platform)
    else mk (LinuxPlatform platform)
  else if String.eqb os_platform "win32" then
    if JS.includes "mingw" platform then mk (MingwPlatform platform version)
    else mk (MsvcPlatform platform version)
  else if String.eqb os_platform "darwin" then mk (MacosPlatform platform)
  else inl ("Install platform " +:+ os_platform +:+
            " is not supported by this action").

(** [qtVer] of [generateScript]: the version with its dots removed. *)
Definition qtVer (this : Installer) : string :=
  JS.replace_all "." "" (version this).

(** The array [modules] that [generateScript] builds. *)
Definition modules (this : Installer) (packages : string) : list string :=
  let modules :=
    ["qt.qt5." +:+ qtVer this +:+ "." +:+ installPlatform (platform this)] in
  let modules :=
    fold_left
      (fun modules entry =>
         modules ++ ["qt.qt5." +:+ qtVer this +:+ "." +:+ entry])
      (JS.split "," packages) modules in
  match extraPackages (platform this) with
  | Some extraPkgs => modules ++ extraPkgs
  | None => modules
  end.

(** [generateScript] *)
Definition generateScript (this : Installer) (path packages : string)
  : string :=
  qtScript_generateScript path (modules this packages).

(** [shouldTest] *)
Definition shouldTest (this : Installer) : bool :=
  let platform := platform_of (platform this) in
  if JS.includes "android" platform ||
     JS.includes "wasm" platform ||
     JS.includes "winrt" platform ||
     JS.includes "ios" platform
  then false
  else true.

End Pure.

(** ** Calls to the outside

    Everything [getQt] and [acquireQt] ask of the runner: the helpers of
    [@actions/io], [@actions/exec], [@actions/tool-cache], [@actions/core],
    [fs], [rimraf], and the effectful methods of the platform object. *)

Inductive Call : Type :=
| io_which (tool : string) (check : bool)
| ex_exec (commandLine : string) (args : list string)
| fs_existsSync (p : string)
| tc_find (toolName versionSpec arch : string)
| runPreInstaller (p : IPlatform) (cacheHit : bool)
| tc_downloadTool (url : string)
| fs_mkdir (p : string)
| fs_writeFile (file data : string)
| runInstaller (p : IPlatform) (tool : string) (args : list string)
    (instPath : string)
| io_mv (source dest : string)
| tc_cacheDir (sourceDir tool version arch : string)
| rimraf_sync (p : string)
| core_setOutput (name value : string)
| core_addPath (inputPath : string)
| addExtraEnvVars (p : IPlatform) (basePath : string)
| runPostInstaller (p : IPlatform)
| setupInstallDir (p : IPlatform)
| io_mkdirP (p : string)
| fs_symlink (target path type : string).

(** What a call gives back when it does not throw. *)
Definition resp (c : Call) : Type :=
  match c with
  | io_which _ _ | tc_find _ _ _ | tc_downloadTool _
  | tc_cacheDir _ _ _ _ => string
  | fs_existsSync _ => bool
  | setupInstallDir _ => (string * string)%type
  | _ => unit
  end.

(** [core.debug] and [core.info] only write to the log. *)
Inductive Level := Debug | Info.

(** A program: a return value, a thrown error, a call with the rest of the
    program waiting for its answer, or a log line. *)
Inductive Prog (A : Type) : Type :=
| Ret (a : A)
| Throw (e : string)
| Do (c : Call) (k : resp c -> Prog A)
| Log (l : Level) (msg : string) (k : Prog A).

Arguments Ret {A} a.
Arguments Throw {A} e.
Arguments Do {A} c k.
Arguments Log {A} l msg k.

Fixpoint bind {A B : Type} (p : Prog A) (f : A -> Prog B) : Prog B :=
  match p with
  | Ret a => f a
  | Throw e => Throw e
  | Do c k => Do c (fun x => bind (k x) f)
  | Log l m k => Log l m (bind k f)
  end.

Definition call (c : Call) : Prog (resp c) := Do c Ret.
Definition log (l : Level) (msg : string) : Prog unit := Log l msg (Ret tt).

Declare Scope prog_scope.
Delimit Scope prog_scope with prog.
Notation "x <- p ;; q" := (bind p (fun x => q))
  (at level 100, p at next level, right associativity) : prog_scope.
Notation "p ;; q" := (bind p (fun _ => q))
  (at level 100, right associativity) : prog_scope.
Local Open Scope prog_scope.

(** What a run leaves behind: every call with its answer ([inl] the error
    it threw), and every log line, in order. *)
Inductive Event : Type :=
| Called (c : Call) (r : string + resp c)
| Logged (l : Level) (msg : string).

(** The outside world: how each call answers in a state [W] and what state
    it leaves. *)
Definition Handler (W : Type) : Type :=
  forall c : Call, W -> (string + resp c) * W.

(** Running a program: the first call that throws ends the run with that
    error (nothing in [installer.ts] catches). *)
Fixpoint exec {W A : Type} (h : Handler W) (p : Prog A) (w : W)
  : (string + A) * list Event * W :=
  match p with
  | Ret a => (inr a, [], w)
  | Throw e => (inl e, [], w)
  | Do c k =>
      match h c w with
      | (inl e, w') => (inl e, [Called c (inl e)], w')
      | (inr x, w') =>
          let '(res, tr, w'') := exec h (k x) w' in
          (res, Called c (inr x) :: tr, w'')
      end
  | Log l m k =>
      let '(res, tr, w') := exec h k w in (res, Logged l m :: tr, w')
  end.

Section Effects.

Context {node : Node} {naming : Naming}.

(** [acquireQt] *)
Definition acquireQt (this : Installer) (packages iArgs cachedir : string)
  : Prog string :=
  (* download the installer *)
  downloadPath <- call (tc_downloadTool
    ("https://download.qt.io/official_releases/online_installers/" +:+
     installerName (platform this))) ;;
  (* create the script and run the installer *)
  let installPath := path_join [tempDir this; "qt"] in
  let scriptPath := path_join [tempDir this; "qt-installer-script.qs"] in
  call (fs_mkdir (path_join [tempDir this; "home"])) ;;
  call (fs_writeFile scriptPath (generateScript this installPath packages)) ;;
  call (runInstaller (platform this) downloadPath
          (["--script"; scriptPath] ++ JS.split " " iArgs) installPath) ;;
  log Info ("Installed Qt " +:+ version this +:+ " for " +:+
            platform_of (platform this)) ;;
  (* add qdep prf file *)
  let qmakePath :=
    path_join [installPath; version this; platform_of (platform this);
               "bin"; qmakeName (platform this)] in
  qdepPath <- call (io_which "qdep" true) ;;
  call (ex_exec qdepPath ["prfgen"; "--qmake"; qmakePath]) ;;
  log Info "Successfully prepared qdep" ;;
  (* install into the local tool cache or global cache *)
  resDir <-
    (if JS.truthy cachedir then
       call (io_mv (path_join [installPath; version this;
                               platform_of (platform this)]) cachedir) ;;
       Ret (path_resolve cachedir)
     else
       call (tc_cacheDir
               (path_join [installPath; version this;
                           platform_of (platform this)])
               "qt" (version this) (platform_of (platform this)))) ;;
  (* remove tmp installation to free some space *)
  call (rimraf_sync installPath) ;;
  Ret resDir.

(** [getQt], "install qdep" *)
Definition installQdep : Prog unit :=
  pythonPath <- call (io_which "python" true) ;;
  log Debug ("Using python: " +:+ pythonPath) ;;
  call (ex_exec pythonPath ["-m"; "pip"; "install"; "qdep"]) ;;
  log Info "Installed qdep".

(** [getQt], "check caches for Qt installation": the value of [toolPath]
    when the check is over. *)
Definition checkCaches (this : Installer) (cachedir : string)
  : Prog (option string) :=
  if JS.truthy cachedir then
    found <- call (fs_existsSync
      (path_join [cachedir; "bin"; qmakeName (platform this)])) ;;
    if found : bool then
      let toolPath := path_resolve cachedir in
      log Debug ("Using globally cached Qt: " +:+ toolPath) ;;
      Ret (Some toolPath)
    else Ret None
  else
    toolPath <- call (tc_find "qt" (version this)
                        (platform_of (platform this))) ;;
    Ret (Some toolPath).

(** [getQt], "download, extract, cache": the final value of [toolPath]. *)
Definition install (this : Installer) (packages iArgs cachedir : string)
  (toolPath : option string) : Prog string :=
  toolPath <-
    (if negb (JS.truthy_opt toolPath) then
       call (runPreInstaller (platform this) false) ;;
       log Debug "Downloading and installing Qt from online installer" ;;
       acquireQt this packages iArgs cachedir
     else
       call (runPreInstaller (platform this) true) ;;
       log Debug ("Using locally cached Qt: " +:+ default "" toolPath) ;;
       Ret (default "" toolPath)) ;;
  log Info ("Using Qt installation: " +:+ toolPath) ;;
  Ret toolPath.

(** [getQt], from "update output / env vars" to the end. *)
Definition publish (this : Installer) (toolPath : string) : Prog unit :=
  (* update output / env vars *)
  call (core_setOutput "qtdir" toolPath) ;;
  call (core_addPath (path_join [toolPath; "bin"])) ;;
  call (addExtraEnvVars (platform this) toolPath) ;;
  (* run post installer *)
  call (runPostInstaller (platform this)) ;;
  call (ex_exec "qmake" ["-version"]) ;;
  call (ex_exec "qmake" ["-query"]) ;;
  (* set outputs *)
  call (core_setOutput "make" (makeName (platform this))) ;;
  call (core_setOutput "tests" (JS.String_of_bool (shouldTest this))) ;;
  call (core_setOutput "testflags" (testFlags (platform this))) ;;
  (* set install dir, create artifact symlink *)
  iPath <- call (setupInstallDir (platform this)) ;;
  call (io_mkdirP (fst iPath)) ;;
  call (fs_symlink
          (path_join [fst iPath;
                      if String.eqb os_platform "win32"
                      then JS.substr 3 toolPath else JS.substr 1 toolPath;
                      ".."])
          "install_link" "dir") ;;
  call (core_setOutput "installdir" (snd iPath)).

(** [getQt] *)
Definition getQt (this : Installer) (packages iArgs cachedir : string)
  : Prog unit :=
  installQdep ;;
  toolPath <- checkCaches this cachedir ;;
  toolPath <- install this packages iArgs cachedir toolPath ;;
  publish this toolPath.

End Effects.

(** ** A sample host, for the examples

    Instances of the parameters to evaluate the definitions on: the
    POSIX [path] of Node, and platform namings in the style of the Qt
    online installer. *)

Module Sample.

(** *** [path.join] and [path.resolve] of Node, POSIX flavour *)

Definition isAbsolute (p : string) : bool := String.prefix "/" p.

Fixpoint trailingSeparator (p : string) : bool :=
  match p with
  | "" => false
  | String c "" => Ascii.eqb c "/"
  | String _ rest => trailingSeparator rest
  end.

(** Empty segments (doubled slashes) and single dots are passed over. *)
Definition skipped (s : string) : bool :=
  String.eqb s "" || String.eqb s ".".

(** One segment of [normalizeString], on the segments kept so far, the
    last one first: two dots take the last segment away, and stay when
    there is none to take and the path may rise above its start. *)
Definition step (allowAboveRoot : bool) (res : list string) (s : string)
  : list string :=
  if skipped s then res
  else if String.eqb s ".." then
    match res with
    | last :: rest =>
        if String.eqb last ".."
        then (if allowAboveRoot then s :: res else res)
        else rest
    | [] => if allowAboveRoot then [s] else []
    end
  else s :: res.

(** The segments that are left of the path [p], walked from the
    segments [from]. *)
Definition walk (allowAboveRoot : bool) (from : list string) (p : string)
  : list string :=
  rev (fold_left (step allowAboveRoot) (JS.split "/" p) (rev from)).

Definition normalize (p : string) : string :=
  if String.eqb p "" then "."
  else
    match walk (negb (isAbsolute p)) [] p with
    | [] =>
        if isAbsolute p then "/"
        else if trailingSeparator p then "./" else "."
    | segments =>
        (if isAbsolute p then "/" else "")
        +:+ String.concat "/" segments
        +:+ (if trailingSeparator p then "/" else "")
    end.

(** [path.join]: the non-empty segments, separated by a slash, then
    normalised. *)
Definition join (segments : list string) : string :=
  normalize (String.concat "/" (List.filter JS.truthy segments)).

(** The working directory, [/work], and the place a path names: its
    segments from the root. *)
Definition cwd : list string := ["work"].

Definition segments_of (p : string) : list string :=
  walk false (if isAbsolute p then [] else cwd) p.

(** [path.resolve] of one path. *)
Definition resolve (p : string) : string :=
  "/" +:+ String.concat "/" (segments_of p).

Definition host (os : string) (env : string -> option string) : Node :=
  {| os_platform := os; process_env := env;
     path_join := join; path_resolve := resolve |}.

(** No environment variable is set. *)
Definition bare : string -> option string := fun _ => None.

Definition naming : Naming :=
  {| qmakeName p :=
       match p with
       | MingwPlatform _ _ | MsvcPlatform _ _ => "qmake.exe"
       | _ => "qmake"
       end;
     makeName p :=
       match p with
       | MingwPlatform _ _ => "mingw32-make"
       | MsvcPlatform _ _ => "nmake"
       | _ => "make"
       end;
     installerName p :=
       match p with
       | MingwPlatform _ _ | MsvcPlatform _ _ =>
           "qt-unified-windows-x86-online.exe"
       | MacosPlatform _ => "qt-unified-mac-x64-online.dmg"
       | _ => "qt-unified-linux-x64-online.run"
       end;
     installPlatform p := platform_of p;
     extraPackages p :=
       match p with
       | MingwPlatform _ _ => Some ["qt.tools.win64_mingw730"]
       | _ => None
       end;
     testFlags _ := "";
     qtScript_generateScript path modules :=
       path +:+ ":" +:+ String.concat "," modules |}.

(** A runner: the entries of its tool cache, and the places that exist
    in its file system. *)
Record World := {
  cache : gmap (string * string * string) string;
  files : list (list string)
}.

Definition touch (p : string) (w : World) : World :=
  {| cache := cache w; files := segments_of p :: files w |}.

(** What is left of the place [f] below the directory [dir]. *)
Fixpoint under (dir f : list string) : option (list string) :=
  match dir, f with
  | [], rest => Some rest
  | d :: dir', s :: f' => if String.eqb d s then under dir' f' else None
  | _ :: _, [] => None
  end.

Definition moved (source dest f : list string) : list string :=
  match under source f with
  | Some rest => dest ++ rest
  | None => f
  end.

Definition exists_in (w : World) (p : string) : bool :=
  existsb (fun f => bool_decide (f = segments_of p)) (files w).

(** The tool cache finds the entry of an explicit version only, three
    numbers separated by dots. *)
Definition number (s : string) : bool :=
  JS.truthy s
  && forallb (fun c => (48 <=? nat_of_ascii c)%nat && (nat_of_ascii c <=? 57)%nat)
       (list_ascii_of_string s).

Definition explicit (version : string) : bool :=
  match JS.split "." version with
  | [major; minor; patch] => number major && number minor && number patch
  | _ => false
  end.

Definition entry (w : World) (tool version arch : string) : string :=
  if explicit version then default "" (cache w !! (tool, version, arch))
  else "".

(** The runner's answers. Its vendor installer delivers Qt [qt], with the
    build tool in the [bin] directory below version and platform key; a
    directory or a link that exists is not made again; the calls that
    [broken] names throw. *)
Definition outside (qt : string) (broken : Call -> option string)
  : Handler World :=
  fun c w =>
    match broken c with
    | Some e => (inl e, w)
    | None =>
        match c return (string + resp c) * World with
        | io_which tool _ => (inr ("/usr/bin/" +:+ tool), w)
        | ex_exec _ _ => (inr tt, w)
        | fs_existsSync p => (inr (exists_in w p), w)
        | tc_find t v a => (inr (entry w t v a), w)
        | runPreInstaller _ _ => (inr tt, w)
        | tc_downloadTool _ =>
            (inr "/tmp/download", touch "/tmp/download" w)
        | fs_mkdir p =>
            if exists_in w p
            then (inl ("EEXIST: file already exists, mkdir " +:+ p), w)
            else (inr tt, touch p w)
        | fs_writeFile f _ => (inr tt, touch f w)
        | runInstaller p _ _ instPath =>
            (inr tt,
             touch (join [join [instPath; qt; platform_of p];
                          "bin"; @qmakeName naming p]) w)
        | io_mv source dest =>
            (inr tt,
             {| cache := cache w;
                files := map (moved (segments_of source) (segments_of dest))
                           (files w) |})
        | tc_cacheDir source t v a =>
            let dir := join ["/opt/hostedtoolcache"; t; v; a] in
            (inr dir,
             {| cache := <[(t, v, a) := dir]> (cache w);
                files := map (moved (segments_of source) (segments_of dir))
                           (files w) ++ files w |})
        | rimraf_sync p =>
            (inr tt,
             {| cache := cache w;
                files := List.filter
                           (fun f => negb (bool_decide
                                             (is_Some (under (segments_of p) f))))
                           (files w) |})
        | core_setOutput _ _ => (inr tt, w)
        | core_addPath _ => (inr tt, w)
        | addExtraEnvVars _ _ => (inr tt, w)
        | runPostInstaller _ => (inr tt, w)
        | setupInstallDir _ => (inr ("/work/install", "install"), w)
        | io_mkdirP p => (inr tt, touch p w)
        | fs_symlink _ p _ =>
            if exists_in w p
            then (inl ("EEXIST: file already exists, symlink " +:+ p), w)
            else (inr tt, touch p w)
        end
    end.

(** Nothing is broken. *)
Definition sound : Call -> option string := fun _ => None.

(** A fresh runner. *)
Definition fresh : World := {| cache := ∅; files := [] |}.

(** A linux host, and an installer of Qt 5.15.2 for gcc_64 on it. *)
Definition linux : Node := host "linux" bare.

Definition this : Installer :=
  {| version := "5.15.2"; platform := LinuxPlatform "gcc_64";
     tempDir := "/home/actions/temp" |}.

(** A run of [getQt] on the runner, without packages or arguments. *)
Definition run (broken : Call -> option string) (cachedir : string)
  (w : World) : (string + unit) * list Event * World :=
  exec (outside "5.15.2" broken)
    (@getQt linux naming this "" "" cachedir) w.

(** There is no python on the runner. *)
Definition python_missing (c : Call) : option string :=
  match c with
  | io_which "python" _ => Some "Unable to locate executable file: python"
  | _ => None
  end.

(** The vendor installer exits with an error. *)
Definition installer_fails (c : Call) : option string :=
  match c with
  | runInstaller _ _ _ _ => Some "The process failed with exit code 1"
  | _ => None
  end.

End Sample.

(** ** Vocabulary of the properties *)

(** [sub] occurs in [s]. *)
Definition occurs_in (sub s : string) : Prop :=
  exists pre post, s = pre +:+ sub +:+ post.

(** The platform key names a target whose tests cannot run on the
    runner: "android", "wasm", "winrt" or "ios" occurs in it. *)
Definition names_untested_target (key : string) : Prop :=
  occurs_in "android" key \/ occurs_in "wasm" key
  \/ occurs_in "winrt" key \/ occurs_in "ios" key.

(** The module identifier of a version fragment and a suffix, as the
    template strings of [generateScript] spell it. *)
Definition module_id (fragment suffix : string) : string :=
  "qt.qt5." +:+ fragment +:+ "." +:+ suffix.

(** The platform-mandatory packages, none when [extraPackages] is null. *)
Definition extras `{Naming} (p : IPlatform) : list string :=
  default [] (extraPackages p).

(** The version fragment as the specification words it,
    [<major><minor-no-dot>]: the major component followed by the minor
    component of the version. *)
Definition spec_version_fragment (version : string) : string :=
  match JS.split "." version with
  | major :: minor :: _ => major +:+ minor
  | [major] => major
  | [] => ""
  end.

(** What a trace shows: its calls in order, the calls that threw with
    their errors, the arguments of the pre-install hook, and the values
    handed to [core.setOutput] under a name. *)
Definition calls (tr : list Event) : list Call :=
  omap (fun ev => match ev with
                  | Called c _ => Some c
                  | Logged _ _ => None
                  end) tr.

Definition failures (tr : list Event) : list (Call * string) :=
  omap (fun ev => match ev with
                  | Called c (inl e) => Some (c, e)
                  | _ => None
                  end) tr.

Definition hooks (tr : list Event) : list bool :=
  omap (fun c => match c with
                 | runPreInstaller _ hit => Some hit
                 | _ => None
                 end) (calls tr).

Definition published (name : string) (tr : list Event) : list string :=
  omap (fun c => match c with
                 | core_setOutput n v =>
                     if String.eqb n name then Some v else None
                 | _ => None
                 end) (calls tr).

(** No call of the trace is of the kind [f]. *)
Definition never (f : Call -> bool) (tr : list Event) : Prop :=
  Forall (fun c => f c = false) (calls tr).

(** The local tool cache is consulted. *)
Definition is_tc_find (c : Call) : bool :=
  match c with tc_find _ _ _ => true | _ => false end.

(** An entry is written to a cache tier: a move into the shared cache
    directory, or a store into the local tool cache. *)
Definition cache_write (c : Call) : bool :=
  match c with io_mv _ _ | tc_cacheDir _ _ _ _ => true | _ => false end.

(** Something is published to the caller. *)
Definition is_output (c : Call) : bool :=
  match c with core_setOutput _ _ | core_addPath _ => true | _ => false end.

(** The steps of [acquireQt] before the relocation: download, home
    directory, script, installer, and the two qdep calls. *)
Definition acquisition_step (c : Call) : bool :=
  match c with
  | tc_downloadTool _ | fs_mkdir _ | fs_writeFile _ _
  | runInstaller _ _ _ _ => true
  | io_which tool _ => String.eqb tool "qdep"
  | ex_exec _ (arg :: _) => String.eqb arg "prfgen"
  | _ => false
  end.

(** Any call of [acquireQt]. *)
Definition acquisition_call (c : Call) : bool :=
  acquisition_step c || cache_write c ||
  match c with rimraf_sync _ => true | _ => false end.

(** The calls that may take away a path or an entry of the tool cache: a
    removal, a move, and a store, which replaces what the entry held. *)
Definition removal (c : Call) : bool :=
  match c with
  | rimraf_sync _ | io_mv _ _ | tc_cacheDir _ _ _ _ => true
  | _ => false
  end.

(** The pre-install hook. *)
Definition is_hook (c : Call) : bool :=
  match c with runPreInstaller _ _ => true | _ => false end.

(** No call of the kind [f] threw. *)
Definition none_threw (f : Call -> bool) (tr : list Event) : Prop :=
  forall c e, In (c, e) (failures tr) -> f c = false.

(** What the installer relies on in a runner in state [W], whatever the
    call. [cached w tool version arch] is what the local tool cache
    answers for the key, the empty string when it finds nothing, and
    [present w p] tells whether the path [p] exists.
    - An answer of the tool cache and a path stay, unless the call is a
      removal, a move or a store.
    - [fs.existsSync] reads the file system.
    What a lookup, a store, a move and the removal of the installation
    root do is not part of these laws: [LocalTier] and [SharedTier] say it
    for the calls of one installer. *)
Record Caches `{Node} {W : Type} (h : Handler W)
  (cached : W -> string -> string -> string -> string)
  (present : W -> string -> bool) : Prop := {
  cached_kept : forall c w r w',
    h c w = (r, w') -> removal c = false ->
    forall t v a, cached w' t v a = cached w t v a;
  existsSync_reads : forall w p,
    h (fs_existsSync p) w = (inr (present w p), w);
  present_kept : forall c w r w' p,
    h c w = (r, w') -> removal c = false ->
    present w p = true -> present w' p = true
}.

(** The places of [acquireQt]: the installation root below the temporary
    directory, the subtree of it that is relocated, and the build tool the
    check of a shared cache directory looks for. *)
Definition installPath `{Node} (this : Installer) : string :=
  path_join [tempDir this; "qt"].

Definition installedDir `{Node} (this : Installer) : string :=
  path_join [installPath this; version this; platform_of (platform this)].

Definition cachedTool `{Node} `{Naming} (this : Installer)
  (cachedir : string) : string :=
  path_join [cachedir; "bin"; qmakeName (platform this)].

(** The local tool cache, for the key of one installer: [tc.find] reads
    the entry under ("qt", version, platform key); what [tc.cacheDir]
    stores under this key is found again, as it is for an explicit
    version; and the removal of the installation root leaves the entry. *)
Record LocalTier `{Node} {W : Type} (h : Handler W)
  (cached : W -> string -> string -> string -> string)
  (this : Installer) : Prop := {
  find_reads : forall w,
    h (tc_find "qt" (version this) (platform_of (platform this))) w =
    (inr (cached w "qt" (version this) (platform_of (platform this))), w);
  store_found : forall w dir w',
    h (tc_cacheDir (installedDir this) "qt" (version this)
         (platform_of (platform this))) w = (inr dir, w') ->
    dir <> ""
    /\ cached w' "qt" (version this) (platform_of (platform this)) = dir;
  cleanup_keeps_entry : forall w r w',
    h (rimraf_sync (installPath this)) w = (r, w') ->
    cached w' "qt" (version this) (platform_of (platform this)) =
    cached w "qt" (version this) (platform_of (platform this))
}.

(** The shared cache directory of one run: it resolves to a path; the
    vendor installer leaves the build tool in the [bin] of the installed
    subtree; the move of the subtree takes it to the [bin] of the
    directory, as the renaming to a directory that is not there yet does;
    and the removal of the installation root leaves it there, as it does
    when the directory lies elsewhere. *)
Record SharedTier `{Node} `{Naming} {W : Type} (h : Handler W)
  (present : W -> string -> bool)
  (this : Installer) (cachedir : string) : Prop := {
  resolves : path_resolve cachedir <> "";
  installer_layout : forall w tool args w',
    h (runInstaller (platform this) tool args (installPath this)) w =
      (inr tt, w') ->
    present w'
      (path_join [installedDir this; "bin"; qmakeName (platform this)])
    = true;
  move_relocates : forall w w',
    h (io_mv (installedDir this) cachedir) w = (inr tt, w') ->
    present w
      (path_join [installedDir this; "bin"; qmakeName (platform this)])
    = true ->
    present w' (cachedTool this cachedir) = true;
  cleanup_keeps_tool : forall w r w',
    h (rimraf_sync (installPath this)) w = (r, w') ->
    present w (cachedTool this cachedir) = true ->
    present w' (cachedTool this cachedir) = true
}.

(** ** Vocabulary of the further properties *)

(** The occurrences of a character in a string. *)
Fixpoint count_char (c : ascii) (s : string) : nat :=
  match s with
  | EmptyString => 0
  | String d s' => (if Ascii.eqb d c then 1 else 0) + count_char c s'
  end.

(** The answers of the calls of a trace that returned, as [pick] reads
    them. *)
Definition returned {A : Type} (pick : forall c : Call, resp c -> option A)
  (tr : list Event) : list A :=
  omap (fun ev => match ev with
                  | Called c (inr x) => pick c x
                  | _ => None
                  end) tr.

(** What [tc.downloadTool], [tc.find], [tc.cacheDir] and
    [setupInstallDir] answered. *)
Definition downloads : list Event -> list string :=
  returned (fun c => match c return resp c -> option string with
                     | tc_downloadTool _ => Some
                     | _ => fun _ => None
                     end).

Definition found : list Event -> list string :=
  returned (fun c => match c return resp c -> option string with
                     | tc_find _ _ _ => Some
                     | _ => fun _ => None
                     end).

Definition stored : list Event -> list string :=
  returned (fun c => match c return resp c -> option string with
                     | tc_cacheDir _ _ _ _ => Some
                     | _ => fun _ => None
                     end).

Definition installDirs : list Event -> list (string * string) :=
  returned (fun c => match c return resp c -> option (string * string) with
                     | setupInstallDir _ => Some
                     | _ => fun _ => None
                     end).

(** The arguments of the calls of a kind, in order. *)
Definition installer_runs (tr : list Event)
  : list (string * list string * string) :=
  omap (fun c => match c with
                 | runInstaller _ tool args instPath =>
                     Some (tool, args, instPath)
                 | _ => None
                 end) (calls tr).

Definition writes (tr : list Event) : list (string * string) :=
  omap (fun c => match c with
                 | fs_writeFile file data => Some (file, data)
                 | _ => None
                 end) (calls tr).

Definition mkdirs (tr : list Event) : list string :=
  omap (fun c => match c with fs_mkdir p => Some p | _ => None end)
    (calls tr).

Definition rimrafs (tr : list Event) : list string :=
  omap (fun c => match c with rimraf_sync p => Some p | _ => None end)
    (calls tr).

Definition outputs (tr : list Event) : list (string * string) :=
  omap (fun c => match c with
                 | core_setOutput name value => Some (name, value)
                 | _ => None
                 end) (calls tr).

Definition addedPaths (tr : list Event) : list string :=
  omap (fun c => match c with core_addPath p => Some p | _ => None end)
    (calls tr).

Definition symlinks (tr : list Event) : list (string * string * string) :=
  omap (fun c => match c with
                 | fs_symlink target path type => Some (target, path, type)
                 | _ => None
                 end) (calls tr).

Definition mkdirPs (tr : list Event) : list string :=
  omap (fun c => match c with io_mkdirP p => Some p | _ => None end)
    (calls tr).

(** Kinds of calls. *)
Definition is_runInstaller (c : Call) : bool :=
  match c with runInstaller _ _ _ _ => true | _ => false end.

Definition is_writeFile (c : Call) : bool :=
  match c with fs_writeFile _ _ => true | _ => false end.

Definition is_mkdir (c : Call) : bool :=
  match c with fs_mkdir _ => true | _ => false end.

Definition is_rimraf (c : Call) : bool :=
  match c with rimraf_sync _ => true | _ => false end.

Definition is_tc_cacheDir (c : Call) : bool :=
  match c with tc_cacheDir _ _ _ _ => true | _ => false end.

Definition is_shared_tier (c : Call) : bool :=
  match c with io_mv _ _ | fs_existsSync _ => true | _ => false end.

Definition is_local_tier (c : Call) : bool :=
  match c with tc_find _ _ _ | tc_cacheDir _ _ _ _ => true | _ => false end.

(** The smoke test of the build tool: [qmake -version], [qmake -query]. *)
Definition is_smoke_test (c : Call) : bool :=
  match c with
  | ex_exec _ [arg] => String.eqb arg "-version" || String.eqb arg "-query"
  | _ => false
  end.

(** In a list of calls, every call of the kind [g] comes after a call of
    the kind [f]. *)
Definition follows (f g : Call -> bool) (l : list Call) : Prop :=
  forall pre c post,
    l = pre ++ c :: post -> g c = true ->
    Exists (fun c' => f c' = true) pre.

(** The same, decided from left to right; [seen] tells whether a call of
    the kind [f] has passed. *)
Fixpoint guarded (f g : Call -> bool) (seen : bool) (l : list Call) : bool :=
  match l with
  | [] => true
  | c :: l' => (if g c then seen else true) && guarded f g (seen || f c) l'
  end.

Definition moves (tr : list Event) : list (string * string) :=
  omap (fun c => match c with
                 | io_mv source dest => Some (source, dest)
                 | _ => None
                 end) (calls tr).

Definition stores (tr : list Event)
  : list (string * string * string * string) :=
  omap (fun c => match c with
                 | tc_cacheDir source tool version arch =>
                     Some (source, tool, version, arch)
                 | _ => None
                 end) (calls tr).

(** Where [io.which] found qdep, and the runs of a command with
    [prfgen]. *)
Definition qdeps : list Event -> list string :=
  returned (fun c => match c return resp c -> option string with
                     | io_which tool _ =>
                         fun x => if String.eqb tool "qdep" then Some x
                                  else None
                     | _ => fun _ => None
                     end).

Definition prfgens (tr : list Event) : list (string * list string) :=
  omap (fun c => match c with
                 | ex_exec cmd ("prfgen" :: args) => Some (cmd, args)
                 | _ => None
                 end) (calls tr).

Definition is_prfgen (c : Call) : bool :=
  match c with ex_exec _ ("prfgen" :: _) => true | _ => false end.

(** Runners of the sample kind on which the relocation, or the smoke
    test of the build tool, throws. *)
Module Faults.

Definition relocation_fails (c : Call) : option string :=
  match c with
  | io_mv _ _ | tc_cacheDir _ _ _ _ => Some "EACCES: permission denied"
  | _ => None
  end.

Definition qmake_fails (c : Call) : option string :=
  match c with
  | ex_exec "qmake" _ => Some "The process qmake failed with exit code 1"
  | _ => None
  end.

End Faults.

(** ** Tactics for runs

    A run of a program against a handler [h] is followed call by call:
    each call throws or answers, and the program branches on truth
    values. *)

Ltac step h :=
  match goal with
  | |- context [h ?c ?w] =>
      let e := fresh "e" in
      let x := fresh "x" in
      let w' := fresh "w" in
      let E := fresh "E" in
      destruct (h c w) as [[e|x] w'] eqn:E
  end.

Ltac branch :=
  match goal with
  | |- context [JS.truthy ?s] => destruct (JS.truthy s) eqn:?
  | |- context [if ?b then _ else _] => is_var b; destruct b
  end.

Ltac open_run :=
  unfold getQt, installQdep, checkCaches, install, acquireQt, publish.

Ltac go h := simpl; repeat first [ step h; simpl | branch; simpl ].

(** All the runs of [getQt], one goal each. *)
Ltac all_runs h := open_run; go h.

(** The next call answers, in a run known to complete. *)
Ltac ok_step h :=
  step h; [let Heq := fresh "Heq" in intros Heq; discriminate Heq|]; simpl.

Ltac never_holds := unfold never; simpl; repeat constructor.

(** The entries of the local tool cache, traced back through the calls
    that keep them. *)
Ltac cached_back h cached L :=
  repeat match goal with
  | E : h ?c ?w = (_, ?w') |- context [cached ?w' _ _ _] =>
      rewrite (cached_kept h cached _ L c w _ w' E eq_refl)
  end.

Ltac failed_step h cached :=
  let c := fresh "c" in
  let e := fresh "e" in
  let Hin := fresh "Hin" in
  let Hs := fresh "Hs" in
  let L := fresh "L" in
  simpl; intros c e Hin;
  repeat (destruct Hin as [Hin|Hin]); try contradiction;
  inversion Hin; subst; split; [reflexivity|];
  intros Hs;
  first [ vm_compute in Hs; discriminate Hs
        | split; [never_holds|]; split; [never_holds|];
          intros L ? ? ?; cached_back h cached L; reflexivity ].

Ltac hook_leaf :=
  let toolPath := fresh "toolPath" in
  let Heq := fresh "Heq" in
  let Ht := fresh "Ht" in
  let Hans := fresh "Hans" in
  simpl; split; [auto|];
  split; [first [left; reflexivity | right; never_holds]|];
  intros toolPath ? ? Heq;
  first
    [ discriminate Heq
    | inversion Heq; subst; clear Heq; simpl;
      repeat match goal with H : JS.truthy _ = _ |- _ => rewrite H end;
      eexists; eexists; split; [reflexivity|];
      split; [reflexivity|]; split; [reflexivity|];
      split; [never_holds|];
      split;
      [ intros Ht; first [discriminate Ht | never_holds]
      | intros Ht Hans;
        first [ discriminate Ht | discriminate Hans
              | eexists; eexists; reflexivity ] ] ].

Ltac hit_leaf :=
  let Heq := fresh "Heq" in
  let Hres := fresh "Hres" in
  let Hnone := fresh "Hnone" in
  simpl; split; [never_holds|];
  split;
  [ intros ? ? Heq;
    first
      [ discriminate Heq
      | split; [reflexivity|]; split; [simpl; tauto|];
        intros Hnone;
        first
          [ reflexivity
          | exfalso; specialize (Hnone _ _ (or_introl eq_refl));
            discriminate Hnone ] ]|];
  split; [auto | intros Hres; first [discriminate Hres | reflexivity]].

(** The paths that exist, traced forward through the calls that keep
    them. *)
Ltac present_forward h present L :=
  repeat match goal with
  | E : h ?c ?w = (_, ?w'), Hp : present ?w ?p = true |- _ =>
      lazymatch goal with
      | _ : present w' p = true |- _ => fail
      | _ => idtac
      end;
      assert (present w' p = true)
        by (apply (present_kept h _ present L c w _ w' p E eq_refl Hp))
  end.

(** The call that threw, if any: one goal for it, none when no call
    threw. *)
Ltac failure_cases :=
  let c := fresh "c" in
  let e := fresh "e" in
  let Hin := fresh "Hin" in
  simpl; intros c e Hin;
  repeat (destruct Hin as [Hin|Hin]); try contradiction;
  inversion Hin; subst.

(** * Properties *)

(** ** Strings *)

Lemma prefix_iff (a b : string) :
  String.prefix a b = true <-> exists post, b = a +:+ post.
Proof.
  revert b. induction a as [|c a IH]; intros b; simpl.
  - destruct b; simpl; split; eauto.
  - destruct b as [|d b]; simpl.
    + split; [discriminate | intros [post H]; discriminate].
    + destruct (ascii_dec c d) as [->|Hne].
      * rewrite IH. split; intros [post H]; exists post.
        -- now rewrite H.
        -- now inversion H.
      * split; [discriminate | intros [post H]; inversion H; congruence].
Qed.

Lemma includes_iff (sub s : string) :
  JS.includes sub s = true <-> occurs_in sub s.
Proof.
  unfold occurs_in. induction s as [|c s IH].
  - cbn [JS.includes]. rewrite orb_false_r, prefix_iff. split.
    + intros [post H]. now exists "", post.
    + intros [[|d pre] [post H]]; [now exists post | discriminate].
  - cbn [JS.includes]. rewrite orb_true_iff, prefix_iff, IH. split.
    + intros [[post H] | (pre & post & H)].
      * now exists "", post.
      * exists (String c pre), post. simpl. now rewrite H.
    + intros ([|d pre] & post & H).
      * left. now exists post.
      * right. inversion H. now exists pre, post.
Qed.

Lemma split_not_nil (sep : ascii) (s : string) : JS.split sep s <> [].
Proof.
  destruct s as [|c s]; simpl; [discriminate|].
  destruct (Ascii.eqb c sep); [discriminate|].
  destruct (JS.split sep s); discriminate.
Qed.

Lemma split_app (sep : ascii) (a b : string) :
  JS.split sep (a +:+ String sep b) = JS.split sep a ++ JS.split sep b.
Proof.
  induction a as [|c a IH]; simpl.
  - now rewrite Ascii.eqb_refl.
  - destruct (Ascii.eqb c sep); rewrite IH; [reflexivity|].
    destruct (JS.split sep a) eqn:E; [now apply split_not_nil in E|].
    reflexivity.
Qed.

Lemma concat_split (sep : ascii) (s : string) :
  String.concat (String sep "") (JS.split sep s) = s.
Proof.
  induction s as [|c s IH]; [reflexivity|].
  cbn [JS.split]. pose proof (split_not_nil sep s) as Hne.
  destruct (Ascii.eqb_spec c sep) as [->|Hc].
  - destruct (JS.split sep s) as [|seg rest]; [contradiction|].
    change (String.concat (String sep "") ("" :: seg :: rest))
      with (String sep (String.concat (String sep "") (seg :: rest))).
    now rewrite IH.
  - destruct (JS.split sep s) as [|seg rest]; [contradiction|].
    destruct rest as [|seg' rest].
    + simpl in *. now rewrite IH.
    + change (String.concat (String sep "") (String c seg :: seg' :: rest))
        with (String c (String.concat (String sep "") (seg :: seg' :: rest))).
      now rewrite IH.
Qed.

Lemma split_entries (sep : ascii) (s : string) :
  Forall (fun e => JS.includes (String sep "") e = false) (JS.split sep s).
Proof.
  induction s as [|c s IH]; [repeat constructor|].
  cbn [JS.split]. destruct (Ascii.eqb_spec c sep) as [->|Hc].
  - constructor; [reflexivity | exact IH].
  - destruct (JS.split sep s) as [|seg rest]; [repeat constructor|].
    + cbn. destruct (ascii_dec sep c); [congruence | reflexivity].
    + inversion IH as [|? ? Hseg Hrest]; subst. constructor; [|exact Hrest].
      cbn [JS.includes]. rewrite Hseg, orb_false_r. simpl.
      destruct (ascii_dec sep c); [congruence | reflexivity].
Qed.

Lemma split_length (sep : ascii) (s : string) :
  length (JS.split sep s) = S (count_char sep s).
Proof.
  induction s as [|c s IH]; [reflexivity|].
  cbn [JS.split count_char]. destruct (Ascii.eqb c sep).
  - simpl. now rewrite IH.
  - destruct (JS.split sep s) as [|seg rest]; [discriminate|].
    simpl in *. exact IH.
Qed.

Lemma split_absent (sep : ascii) (s : string) :
  JS.includes (String sep "") s = false -> JS.split sep s = [s].
Proof.
  induction s as [|c s IH]; [reflexivity|].
  cbn [JS.includes JS.split]. rewrite orb_false_iff. intros [Hp Hi].
  destruct (Ascii.eqb_spec c sep) as [->|Hne].
  - simpl in Hp. destruct (ascii_dec sep sep); [|contradiction].
    destruct s; discriminate.
  - now rewrite IH.
Qed.

(** Entries without the separator, joined and split, are the entries. *)
Lemma split_concat (sep : ascii) (l : list string) :
  l <> [] ->
  Forall (fun e => JS.includes (String sep "") e = false) l ->
  JS.split sep (String.concat (String sep "") l) = l.
Proof.
  induction l as [|e l IH]; [congruence|]. intros _ Hl.
  inversion Hl as [|? ? He Hl']; subst.
  destruct l as [|e' l].
  - now apply split_absent.
  - change (String.concat (String sep "") (e :: e' :: l))
      with (e +:+ String sep (String.concat (String sep "") (e' :: l))).
    rewrite split_app, IH, split_absent by (auto; discriminate).
    reflexivity.
Qed.

Lemma append_assoc (a b c : string) : (a +:+ b) +:+ c = a +:+ (b +:+ c).
Proof.
  induction a as [|d a IH]; [reflexivity|].
  change (String d ((a +:+ b) +:+ c) = String d (a +:+ (b +:+ c))).
  now rewrite IH.
Qed.

Lemma replace_all_app (c : ascii) (a b : string) :
  JS.replace_all c "" (a +:+ b) =
  JS.replace_all c "" a +:+ JS.replace_all c "" b.
Proof.
  induction a as [|d a IH]; simpl; [reflexivity|].
  destruct (Ascii.eqb d c); simpl; now rewrite IH.
Qed.

Lemma replace_all_absent (c : ascii) (s : string) :
  JS.includes (String c "") s = false -> JS.replace_all c "" s = s.
Proof.
  induction s as [|d s IH]; [reflexivity|].
  cbn [JS.includes JS.replace_all]. rewrite orb_false_iff. intros [Hp Hi].
  destruct (Ascii.eqb_spec d c) as [->|Hne].
  - simpl in Hp. destruct (ascii_dec c c); [|contradiction].
    destruct s; discriminate.
  - now rewrite IH.
Qed.

(** ** The installer script: [generateScript] *)

Section Script.

Context {naming : Naming}.

Lemma fold_left_push (f : string -> string) (l acc : list string) :
  fold_left (fun modules entry => modules ++ [f entry]) l acc =
  acc ++ map f l.
Proof.
  revert acc. induction l as [|x l IH]; intros acc; simpl.
  - now rewrite app_nil_r.
  - now rewrite IH, <- app_assoc.
Qed.

Lemma modules_eq (this : Installer) (packages : string) :
  modules this packages =
  module_id (qtVer this) (installPlatform (platform this))
    :: map (module_id (qtVer this)) (JS.split "," packages)
    ++ extras (platform this).
Proof.
  unfold modules, extras.
  rewrite (fold_left_push (fun entry => "qt.qt5." +:+ qtVer this +:+ "." +:+ entry)).
  fold (module_id (qtVer this)).
  destruct (extraPackages (platform this)); simpl.
  - reflexivity.
  - now rewrite app_nil_r.
Qed.

(** C4. The module list handed to the script builder is the base SDK
    module first, then one module per entry the caller requested, in the
    order supplied, then the platform's extra packages last, in the order
    the platform gives them. The entries the caller requested are what
    stands between the commas of the package string: every package string
    is its entries joined with commas, none of them with a comma in it;
    and whatever the entries are, as long as none has a comma in it, the
    string that joins them gives one module for each of them, in their
    order. *)
Theorem modules_order (this : Installer) (path : string) :
  (forall packages, exists entries,
     entries <> []
     /\ Forall (fun entry => JS.includes "," entry = false) entries
     /\ String.concat "," entries = packages
     /\ modules this packages =
        [module_id (qtVer this) (installPlatform (platform this))]
        ++ map (module_id (qtVer this)) entries
        ++ extras (platform this)
     /\ generateScript this path packages =
        qtScript_generateScript path
          ([module_id (qtVer this) (installPlatform (platform this))]
           ++ map (module_id (qtVer this)) entries
           ++ extras (platform this)))
  /\ (forall entries,
        entries <> [] ->
        Forall (fun entry => JS.includes "," entry = false) entries ->
        modules this (String.concat "," entries) =
          [module_id (qtVer this) (installPlatform (platform this))]
          ++ map (module_id (qtVer this)) entries
          ++ extras (platform this)
        /\ generateScript this path (String.concat "," entries) =
           qtScript_generateScript path
             ([module_id (qtVer this) (installPlatform (platform this))]
              ++ map (module_id (qtVer this)) entries
              ++ extras (platform this))).
Proof.
  split.
  - intros packages. exists (JS.split "," packages).
    split; [apply split_not_nil|]. split; [apply split_entries|].
    split; [apply concat_split|].
    unfold generateScript. rewrite modules_eq. split; reflexivity.
  - intros entries Hne Hcomma. unfold generateScript.
    rewrite modules_eq, split_concat by assumption. split; reflexivity.
Qed.

(** C9. The empty package string has one (empty) entry, so the module
    list is the base module, then a module with an empty suffix, then the
    extras; and every empty entry of a package string, as between two
    adjacent commas, gives such a module at its place in the list. *)
Theorem empty_package_entry (this : Installer) :
  modules this "" =
    [module_id (qtVer this) (installPlatform (platform this));
     "qt.qt5." +:+ qtVer this +:+ "."] ++ extras (platform this)
  /\ (forall (packages : string) (i : nat),
        JS.split "," packages !! i = Some "" ->
        modules this packages !! S i = Some ("qt.qt5." +:+ qtVer this +:+ "."))
  /\ (forall a b : string,
        JS.split "," (a +:+ ",," +:+ b) =
        JS.split "," a ++ [""] ++ JS.split "," b).
Proof.
  split; [|split].
  - rewrite modules_eq. reflexivity.
  - intros packages i Hi. rewrite modules_eq. simpl.
    rewrite lookup_app_l.
    + rewrite list_lookup_fmap, Hi. reflexivity.
    + rewrite length_map. now apply lookup_lt_Some in Hi.
  - intros a b. change (",," +:+ b) with (String "," (String "," b)).
    rewrite split_app. f_equal.
Qed.

Lemma replace_all_filter (c : ascii) (s : string) :
  list_ascii_of_string (JS.replace_all c "" s) =
  List.filter (fun d => negb (Ascii.eqb d c)) (list_ascii_of_string s).
Proof.
  induction s as [|d s IH]; [reflexivity|].
  cbn [JS.replace_all list_ascii_of_string List.filter].
  destruct (Ascii.eqb d c); cbn [negb]; [exact IH|].
  cbn [list_ascii_of_string]. now rewrite IH.
Qed.

Lemma replace_all_gone (c : ascii) (s : string) :
  JS.includes (String c "") (JS.replace_all c "" s) = false.
Proof.
  induction s as [|d s IH]; [reflexivity|].
  cbn [JS.replace_all]. destruct (Ascii.eqb_spec d c) as [->|Hne].
  - exact IH.
  - cbn [JS.includes]. rewrite IH, orb_false_r.
    destruct (JS.replace_all c "" s); simpl;
      destruct (ascii_dec c d); congruence.
Qed.

Lemma replace_all_concat (c : ascii) (components : list string) :
  Forall (fun s => JS.includes (String c "") s = false) components ->
  JS.replace_all c "" (String.concat (String c "") components) =
  String.concat "" components.
Proof.
  induction 1 as [|s l Hs Hl IH]; [reflexivity|].
  destruct l as [|s' l].
  - now apply replace_all_absent.
  - change (String.concat (String c "") (s :: s' :: l))
      with (s +:+ String c (String.concat (String c "") (s' :: l))).
    change (String.concat "" (s :: s' :: l))
      with (s +:+ "" +:+ String.concat "" (s' :: l)).
    rewrite replace_all_app. cbn [JS.replace_all]. rewrite Ascii.eqb_refl.
    rewrite IH, replace_all_absent by assumption. reflexivity.
Qed.

(** C3, as the code has it. For every installer, whatever its version
    string, the version fragment of the module identifiers is the version
    with every dot removed: its characters are those of the version that
    are not a dot, in their order, and no dot is left in it. So for a
    version of any number of components separated by dots it is the
    components one after the other, for major.minor.patch all three of
    them. Every module identifier of the list, the base module as those
    of the caller's entries, is built on this fragment. *)
Theorem qtVer_drops_every_dot (this : Installer) :
  qtVer this =
    string_of_list_ascii
      (List.filter (fun c => negb (Ascii.eqb c "."))
         (list_ascii_of_string (version this)))
  /\ JS.includes "." (qtVer this) = false
  /\ (forall components,
        Forall (fun s => JS.includes "." s = false) components ->
        version this = String.concat "." components ->
        qtVer this = String.concat "" components)
  /\ (forall major minor patch,
        JS.includes "." major = false ->
        JS.includes "." minor = false ->
        JS.includes "." patch = false ->
        version this = major +:+ "." +:+ minor +:+ "." +:+ patch ->
        qtVer this = major +:+ minor +:+ patch)
  /\ (forall packages,
        modules this packages =
        [module_id (qtVer this) (installPlatform (platform this))]
        ++ map (module_id (qtVer this)) (JS.split "," packages)
        ++ extras (platform this)).
Proof.
  assert (Hc : forall components,
    Forall (fun s => JS.includes "." s = false) components ->
    version this = String.concat "." components ->
    qtVer this = String.concat "" components).
  { intros components Hdots Hv. unfold qtVer. rewrite Hv.
    now apply replace_all_concat. }
  split; [|split; [|split; [|split]]].
  - unfold qtVer.
    rewrite <- (string_of_list_ascii_of_string (JS.replace_all "." "" _)).
    now rewrite replace_all_filter.
  - apply replace_all_gone.
  - exact Hc.
  - intros major minor patch Hmajor Hminor Hpatch Hv.
    rewrite (Hc [major; minor; patch]); [reflexivity | | exact Hv].
    repeat constructor; assumption.
  - intros packages. now rewrite modules_eq.
Qed.

End Script.

(** C4, on the sample naming: two packages for a MinGW platform, which
    has one extra package, and the script built from the four modules. *)
Lemma modules_order_witness :
  @modules Sample.naming
    {| version := "5.15.2";
       platform := MingwPlatform "win64_mingw73" "5.15.2";
       tempDir := "/tmp" |} "qtcharts,qtwebengine" =
    ["qt.qt5.5152.win64_mingw73"; "qt.qt5.5152.qtcharts";
     "qt.qt5.5152.qtwebengine"; "qt.tools.win64_mingw730"]
  /\ @generateScript Sample.naming
       {| version := "5.15.2";
          platform := MingwPlatform "win64_mingw73" "5.15.2";
          tempDir := "/tmp" |} "/tmp/qt" "qtcharts,qtwebengine" =
     "/tmp/qt:qt.qt5.5152.win64_mingw73,qt.qt5.5152.qtcharts,qt.qt5.5152.qtwebengine,qt.tools.win64_mingw730".
Proof.
  destruct (@modules_order Sample.naming
    {| version := "5.15.2";
       platform := MingwPlatform "win64_mingw73" "5.15.2";
       tempDir := "/tmp" |} "/tmp/qt") as [_ H].
  destruct (H ["qtcharts"; "qtwebengine"] ltac:(discriminate)
              ltac:(repeat constructor)) as [Hm Hs].
  split; [exact Hm | exact Hs].
Defined.

(** C3, for versions of three and of four components: 5.15.2 for platform
    gcc_64, with one package, and 6.2.0.1. *)
Lemma qtVer_drops_every_dot_witness :
  @qtVer {| version := "5.15.2"; platform := LinuxPlatform "gcc_64";
            tempDir := "/tmp" |} = "5152"
  /\ @modules Sample.naming
       {| version := "5.15.2"; platform := LinuxPlatform "gcc_64";
          tempDir := "/tmp" |} "qtcharts" =
     ["qt.qt5.5152.gcc_64"; "qt.qt5.5152.qtcharts"]
  /\ @qtVer {| version := "6.2.0.1"; platform := LinuxPlatform "gcc_64";
               tempDir := "/tmp" |} = "6201".
Proof.
  pose proof (@qtVer_drops_every_dot Sample.naming
    {| version := "5.15.2"; platform := LinuxPlatform "gcc_64";
       tempDir := "/tmp" |}) as (_ & _ & _ & Hq & Hm).
  pose proof (@qtVer_drops_every_dot Sample.naming
    {| version := "6.2.0.1"; platform := LinuxPlatform "gcc_64";
       tempDir := "/tmp" |}) as (Hf & _).
  specialize (Hq "5" "15" "2" eq_refl eq_refl eq_refl eq_refl).
  split; [exact Hq|]. split; [|exact Hf].
  rewrite (Hm "qtcharts"), Hq. reflexivity.
Defined.

(** C3, as the specification words it, fails: the fragment of 5.15.2 that
    [generateScript] builds is not [<major><minor>]. *)
Lemma qtVer_is_not_major_minor :
  spec_version_fragment "5.15.2" = "515"
  /\ @qtVer {| version := "5.15.2"; platform := LinuxPlatform "gcc_64";
               tempDir := "/tmp" |} = "5152"
  /\ ~ (forall this : Installer,
          qtVer this = spec_version_fragment (version this)).
Proof.
  split; [reflexivity|]. split; [reflexivity|].
  intros H.
  specialize (H {| version := "5.15.2"; platform := LinuxPlatform "gcc_64";
                   tempDir := "/tmp" |}).
  discriminate H.
Qed.

(** ** The constructor and [initTempDir] *)

Section Construction.

Context {node : Node}.

(** C7. The constructor picks the platform by the host system and the
    platform key: on linux the Android platform for a key containing
    "android" and the Linux platform otherwise; on win32 the MinGW platform
    for a key containing "mingw" and the MSVC platform otherwise; on darwin
    the macOS platform. On any other host it throws, and no object is
    built. *)
Theorem constructor_selects_platform (version key : string) :
  let built p :=
    new_Installer version key =
    inr {| version := version; platform := p; tempDir := initTempDir key |} in
  (os_platform = "linux" -> occurs_in "android" key ->
   built (AndroidPlatform key))
  /\ (os_platform = "linux" -> ~ occurs_in "android" key ->
      built (LinuxPlatform key))
  /\ (os_platform = "win32" -> occurs_in "mingw" key ->
      built (MingwPlatform key version))
  /\ (os_platform = "win32" -> ~ occurs_in "mingw" key ->
      built (MsvcPlatform key version))
  /\ (os_platform = "darwin" -> built (MacosPlatform key))
  /\ (os_platform <> "linux" -> os_platform <> "win32" ->
      os_platform <> "darwin" ->
      new_Installer version key =
      inl ("Install platform " +:+ os_platform +:+
           " is not supported by this action")).
Proof.
  cbv zeta. unfold new_Installer.
  repeat split.
  - intros -> Hk. apply includes_iff in Hk. simpl. now rewrite Hk.
  - intros -> Hk. simpl.
    destruct (JS.includes "android" key) eqn:E; [|reflexivity].
    apply includes_iff in E. contradiction.
  - intros -> Hk. apply includes_iff in Hk. simpl. now rewrite Hk.
  - intros -> Hk. simpl.
    destruct (JS.includes "mingw" key) eqn:E; [|reflexivity].
    apply includes_iff in E. contradiction.
  - intros ->. reflexivity.
  - intros H1 H2 H3.
    apply String.eqb_neq in H1, H2, H3. now rewrite H1, H2, H3.
Qed.

(** C10. With RUNNER_TEMP unset (or empty), the fallback compares the
    platform key, not the host system, with "win32" and "darwin": for every
    key that is neither, on every host, the temporary root is
    [path.join("/home", "actions", "temp")], also in the object the
    constructor builds; the two other branches are taken only for the keys
    "win32" and "darwin" themselves. *)
Theorem initTempDir_compares_the_key (key : string)
  (Hunset : process_env "RUNNER_TEMP" = None \/
            process_env "RUNNER_TEMP" = Some "") :
  (key <> "win32" -> key <> "darwin" ->
   initTempDir key = path_join ["/home"; "actions"; "temp"]
   /\ forall version this,
        new_Installer version key = inr this ->
        tempDir this = path_join ["/home"; "actions"; "temp"])
  /\ initTempDir "darwin" = path_join ["/Users"; "actions"; "temp"]
  /\ initTempDir "win32" =
     path_join [JS.or_else (process_env "USERPROFILE") "C:\";
                "actions"; "temp"].
Proof.
  assert (Hfall : JS.or_else (process_env "RUNNER_TEMP") "" = "")
    by (destruct Hunset as [-> | ->]; reflexivity).
  unfold initTempDir. rewrite Hfall. cbn [JS.truthy negb].
  split; [|split; reflexivity].
  intros Hw Hd.
  apply String.eqb_neq in Hw, Hd.
  assert (Hi : initTempDir key = path_join ["/home"; "actions"; "temp"]).
  { unfold initTempDir. rewrite Hfall. cbn [JS.truthy negb].
    now rewrite Hw, Hd. }
  split; [now rewrite Hw, Hd|].
  intros version this. unfold new_Installer. rewrite Hi.
  destruct (String.eqb os_platform "linux");
    [destruct (JS.includes "android" key)|
     destruct (String.eqb os_platform "win32");
       [destruct (JS.includes "mingw" key)|
        destruct (String.eqb os_platform "darwin")]];
    intros Heq; inversion Heq; reflexivity.
Qed.

End Construction.

(** C7, witness: an Android key on a linux host, and a host that is not
    supported. *)
Lemma constructor_selects_platform_witness :
  @new_Installer (Sample.host "linux" Sample.bare) "5.15.2" "android_arm64" =
    inr {| version := "5.15.2"; platform := AndroidPlatform "android_arm64";
           tempDir := "/home/actions/temp" |}
  /\ @new_Installer (Sample.host "freebsd" Sample.bare) "5.15.2" "gcc_64" =
     inl "Install platform freebsd is not supported by this action".
Proof.
  split.
  - apply (@constructor_selects_platform
             (Sample.host "linux" Sample.bare) "5.15.2" "android_arm64").
    + reflexivity.
    + exists "", "_arm64". reflexivity.
  - apply (@constructor_selects_platform
             (Sample.host "freebsd" Sample.bare) "5.15.2" "gcc_64");
      discriminate.
Defined.

(** C10, witness: the key clang_64 on a darwin host. *)
Lemma initTempDir_compares_the_key_witness :
  @initTempDir (Sample.host "darwin" Sample.bare) "clang_64" =
  "/home/actions/temp".
Proof.
  apply (@initTempDir_compares_the_key
           (Sample.host "darwin" Sample.bare) "clang_64");
    [left; reflexivity | discriminate | discriminate].
Defined.

(** ** Runs of [getQt] *)

Section Runs.

Context {node : Node} {naming : Naming} {W : Type} (h : Handler W).

#[local] Arguments generateScript : simpl never.
#[local] Arguments shouldTest : simpl never.
#[local] Arguments JS.split : simpl never.
#[local] Arguments JS.substr : simpl never.
#[local] Arguments JS.truthy : simpl never.

(** C6. When a call of a run throws, the run ends with that error; and
    when the call is a step of the acquisition before the relocation
    (download, home directory, script, installer, qdep), the run has
    written to neither cache tier, no move and no store, and has published
    nothing; on a runner whose cache tiers behave ([Caches]) every entry
    of the local tool cache is as it was before the run. *)
Theorem failed_acquisition_caches_nothing
  (cached : W -> string -> string -> string -> string)
  (present : W -> string -> bool)
  (this : Installer) (packages iArgs cachedir : string) (w : W) :
  let '(res, tr, w') := exec h (getQt this packages iArgs cachedir) w in
  forall c e, In (c, e) (failures tr) ->
    res = inl e
    /\ (acquisition_step c = true ->
        never cache_write tr
        /\ never is_output tr
        /\ (Caches h cached present ->
            forall t v a, cached w' t v a = cached w t v a)).
Proof.
  all_runs h; try (failed_step h cached; fail).
  all: simpl; intros c e [].
Qed.

(** C5, as the code has it. Every run invokes the pre-install hook at
    most once, and makes a call of the acquisition only when the hook was
    invoked for a miss. When the run gets as far as the decision (qdep is
    installed and the caches are checked), the next call is the hook,
    invoked for a hit exactly when a tool path was found; no other hook
    follows; after a hit no call of the acquisition follows; and after a
    miss, when the hook returns, the acquisition starts with the
    download. *)
Theorem one_hook_per_run (this : Installer)
  (packages iArgs cachedir : string) (w : W) :
  let '(res, tr, _) := exec h (getQt this packages iArgs cachedir) w in
  (hooks tr = [] \/ hooks tr = [true] \/ hooks tr = [false])
  /\ (hooks tr = [false] \/ never acquisition_call tr)
  /\ (forall toolPath tr0 w0,
        exec h (installQdep ;; checkCaches this cachedir) w =
          (inr toolPath, tr0, w0) ->
        exists answer rest,
          tr = tr0 ++
               Called (runPreInstaller (platform this)
                         (JS.truthy_opt toolPath)) answer :: rest
          /\ hooks tr0 = [] /\ hooks rest = []
          /\ never acquisition_call tr0
          /\ (JS.truthy_opt toolPath = true -> never acquisition_call rest)
          /\ (JS.truthy_opt toolPath = false -> answer = inr tt ->
              exists downloaded rest',
                rest =
                Logged Debug
                  "Downloading and installing Qt from online installer"
                :: Called
                     (tc_downloadTool
                        ("https://download.qt.io/official_releases/online_installers/"
                         +:+ installerName (platform this)))
                     downloaded
                :: rest')).
Proof.
  all_runs h; hook_leaf.
Qed.

Lemma truthy_true (s : string) : JS.truthy s = true <-> s <> "".
Proof. destruct s; unfold JS.truthy; split; congruence. Qed.

Lemma truthy_false (s : string) : JS.truthy s = false <-> s = "".
Proof. destruct s; unfold JS.truthy; split; congruence. Qed.

(** C2. With a shared cache directory supplied and the build tool found
    at [path.join(cachedir, "bin", qmakeName)], the check of the caches
    ends with the resolved path of the directory without consulting the
    local tool cache; no run with a shared cache directory ever consults
    it. With none supplied and no entry in the local tool cache under
    ("qt", version, platform key), for which [tc.find] answers the empty
    string, the check ends with a miss: a tool path that is falsy. *)
Theorem cache_resolution (this : Installer) (cachedir : string) (w : W) :
  (cachedir <> "" ->
   forall w',
     h (fs_existsSync
          (path_join [cachedir; "bin"; qmakeName (platform this)])) w =
       (inr true, w') ->
     exists tr,
       exec h (checkCaches this cachedir) w =
         (inr (Some (path_resolve cachedir)), tr, w')
       /\ never is_tc_find tr)
  /\ (cachedir <> "" ->
      forall packages iArgs,
        never is_tc_find
          (snd (fst (exec h (getQt this packages iArgs cachedir) w))))
  /\ (cachedir = "" ->
      forall w',
        h (tc_find "qt" (version this) (platform_of (platform this))) w =
          (inr "", w') ->
        exists toolPath tr,
          exec h (checkCaches this cachedir) w = (inr toolPath, tr, w')
          /\ JS.truthy_opt toolPath = false).
Proof.
  split; [|split].
  - intros Hc w' Hfound. apply truthy_true in Hc.
    unfold checkCaches. rewrite Hc. simpl. rewrite Hfound. simpl.
    eexists. split; [reflexivity | never_holds].
  - intros Hc packages iArgs. apply truthy_true in Hc.
    open_run. rewrite !Hc. go h; never_holds.
  - intros -> w' Hfind. unfold checkCaches. simpl. rewrite Hfind. simpl.
    eexists. eexists. split; reflexivity.
Qed.

Lemma shouldTest_false_iff (this : Installer) :
  shouldTest this = false <->
  occurs_in "android" (platform_of (platform this))
  \/ occurs_in "wasm" (platform_of (platform this))
  \/ occurs_in "winrt" (platform_of (platform this))
  \/ occurs_in "ios" (platform_of (platform this)).
Proof.
  unfold shouldTest. rewrite <- !includes_iff.
  destruct (JS.includes "android" _), (JS.includes "wasm" _),
    (JS.includes "winrt" _), (JS.includes "ios" _); simpl;
    intuition congruence.
Qed.

(** The value a run hands to the output "tests". *)
Lemma tests_output_value (this : Installer)
  (packages iArgs cachedir : string) (w : W) :
  let '(res, tr, _) := exec h (getQt this packages iArgs cachedir) w in
  (published "tests" tr = [] \/
   published "tests" tr = [JS.String_of_bool (shouldTest this)])
  /\ (res = inr tt ->
      published "tests" tr = [JS.String_of_bool (shouldTest this)]).
Proof.
  all_runs h; simpl; (split; [auto | first [discriminate | reflexivity]]).
Qed.

(** C8. [shouldTest] is false exactly when the platform key contains
    "android", "wasm", "winrt" or "ios". The output "tests" of a run is set
    at most once, to the string "false" for such a key and to the string
    "true" for every other key, whatever the test flags; and a run that
    completes has set it. *)
Theorem tests_output_policy (this : Installer)
  (packages iArgs cachedir : string) (w : W) :
  (shouldTest this = false <->
   occurs_in "android" (platform_of (platform this))
   \/ occurs_in "wasm" (platform_of (platform this))
   \/ occurs_in "winrt" (platform_of (platform this))
   \/ occurs_in "ios" (platform_of (platform this)))
  /\ (shouldTest this = true <->
      ~ names_untested_target (platform_of (platform this)))
  /\ (let '(res, tr, _) := exec h (getQt this packages iArgs cachedir) w in
      (published "tests" tr = []
       \/ (published "tests" tr = ["false"]
           /\ names_untested_target (platform_of (platform this)))
       \/ (published "tests" tr = ["true"]
           /\ ~ names_untested_target (platform_of (platform this))))
      /\ (res = inr tt ->
          (names_untested_target (platform_of (platform this)) ->
           published "tests" tr = ["false"])
          /\ (~ names_untested_target (platform_of (platform this)) ->
              published "tests" tr = ["true"]))).
Proof.
  pose proof (shouldTest_false_iff this) as Hiff.
  pose proof (tests_output_value this packages iArgs cachedir w) as Hrun.
  fold (names_untested_target (platform_of (platform this))) in Hiff |- *.
  split; [exact Hiff|].
  split; [destruct (shouldTest this); intuition congruence|].
  destruct (exec h (getQt this packages iArgs cachedir) w) as [[res tr] w'].
  destruct Hrun as [Hval Hdone].
  destruct (shouldTest this); cbn [JS.String_of_bool] in *.
  - assert (Hno : ~ names_untested_target (platform_of (platform this)))
      by (intros Hx; apply Hiff in Hx; discriminate Hx).
    split; [destruct Hval; auto|].
    intros Hres. split; [intros Hx; contradiction | auto].
  - assert (Hyes : names_untested_target (platform_of (platform this)))
      by now apply Hiff.
    split; [destruct Hval; auto|].
    intros Hres. split; [auto | intros Hx; contradiction].
Qed.


(** *** The two cache tiers *)

Context (cached : W -> string -> string -> string -> string)
        (present : W -> string -> bool)
        (L : Caches h cached present).

Lemma cached_step c w r w' t v a :
  h c w = (r, w') -> removal c = false ->
  cached w' t v a = cached w t v a.
Proof. intros E Hc. eapply cached_kept; eauto. Qed.

Lemma present_step c w r w' p :
  h c w = (r, w') -> removal c = false ->
  present w p = true -> present w' p = true.
Proof. intros E Hc Hp. eapply present_kept; eauto. Qed.

(** A run that finds an entry in the local tool cache. *)
Lemma hit_local (this : Installer) (packages iArgs : string) (w : W)
  (toolRoot : string) :
  LocalTier h cached this ->
  toolRoot <> "" ->
  cached w "qt" (version this) (platform_of (platform this)) = toolRoot ->
  let '(res, tr, _) := exec h (getQt this packages iArgs "") w in
  never acquisition_call tr
  /\ (forall trq wq, exec h installQdep w = (inr tt, trq, wq) ->
      hooks tr = [true]
      /\ In (tc_find "qt" (version this) (platform_of (platform this)))
           (calls tr)
      /\ (none_threw is_hook tr -> published "qtdir" tr = [toolRoot]))
  /\ (published "qtdir" tr = [] \/ published "qtdir" tr = [toolRoot])
  /\ (res = inr tt -> published "qtdir" tr = [toolRoot]).
Proof.
  intros T Hne Hc. apply truthy_true in Hne.
  open_run. change (JS.truthy "") with false. simpl.
  step h; [hit_leaf|]. simpl. step h; [hit_leaf|]. simpl.
  rewrite (find_reads _ _ _ T).
  rewrite (cached_step _ _ _ _ _ _ _ E0 eq_refl).
  rewrite (cached_step _ _ _ _ _ _ _ E eq_refl).
  rewrite Hc. simpl. rewrite Hne. simpl.
  go h; hit_leaf.
Qed.

(** A run that finds the build tool in the shared cache directory. *)
Lemma hit_shared (this : Installer) (packages iArgs cachedir : string)
  (w : W) :
  cachedir <> "" ->
  path_resolve cachedir <> "" ->
  present w (cachedTool this cachedir) = true ->
  let '(res, tr, _) := exec h (getQt this packages iArgs cachedir) w in
  never acquisition_call tr
  /\ (forall trq wq, exec h installQdep w = (inr tt, trq, wq) ->
      hooks tr = [true]
      /\ In (fs_existsSync (cachedTool this cachedir)) (calls tr)
      /\ (none_threw is_hook tr ->
          published "qtdir" tr = [path_resolve cachedir]))
  /\ (published "qtdir" tr = [] \/
      published "qtdir" tr = [path_resolve cachedir])
  /\ (res = inr tt -> published "qtdir" tr = [path_resolve cachedir]).
Proof.
  unfold cachedTool. intros Hc Hr Hp. apply truthy_true in Hc, Hr.
  open_run. rewrite !Hc. simpl.
  step h; [hit_leaf|]. simpl. step h; [hit_leaf|]. simpl.
  rewrite (existsSync_reads _ _ _ L).
  rewrite (present_step _ _ _ _ _ E0 eq_refl
             (present_step _ _ _ _ _ E eq_refl Hp)).
  simpl. rewrite Hr. simpl.
  go h; hit_leaf.
Qed.

(** A first run on an empty local tool cache: it acquires, stores under
    the key, and publishes the stored directory. *)
Lemma first_run_local (this : Installer) (packages iArgs : string)
  (w0 w1 : W) (tr1 : list Event) :
  LocalTier h cached this ->
  cached w0 "qt" (version this) (platform_of (platform this)) = "" ->
  exec h (getQt this packages iArgs "") w0 = (inr tt, tr1, w1) ->
  exists toolRoot,
    toolRoot <> ""
    /\ cached w1 "qt" (version this) (platform_of (platform this)) = toolRoot
    /\ hooks tr1 = [false]
    /\ In (tc_cacheDir (installedDir this) "qt" (version this)
             (platform_of (platform this)))
          (calls tr1)
    /\ published "qtdir" tr1 = [toolRoot].
Proof.
  intros T. pose proof (store_found _ _ _ T) as Hstore.
  pose proof (cleanup_keeps_entry _ _ _ T) as Hclean.
  pose proof (find_reads _ _ _ T) as Hfind.
  revert Hstore Hclean Hfind. unfold installedDir, installPath.
  intros Hstore Hclean Hfind Hempty.
  open_run. change (JS.truthy "") with false. simpl.
  ok_step h. ok_step h.
  rewrite Hfind. cached_back h cached L. rewrite Hempty. simpl.
  change (JS.truthy "") with false. simpl.
  repeat (ok_step h).
  intros Heq. inversion Heq; subst; clear Heq.
  match goal with
  | E : h (tc_cacheDir _ _ _ _) _ = (inr ?dir, _) |- _ =>
      exists dir; destruct (Hstore _ _ _ E) as [Hne Hst]
  end.
  split; [exact Hne|]. split.
  { cached_back h cached L.
    match goal with
    | E : h (rimraf_sync _) _ = _ |- _ => rewrite (Hclean _ _ _ E)
    end.
    exact Hst. }
  split; [reflexivity|]. split; [|reflexivity].
  simpl. tauto.
Qed.

(** A first run on a shared cache directory without the build tool: it
    acquires, moves the installed subtree there, and publishes the
    resolved directory. *)
Lemma first_run_shared (this : Installer) (packages iArgs cachedir : string)
  (w0 w1 : W) (tr1 : list Event) :
  cachedir <> "" ->
  SharedTier h present this cachedir ->
  (forall trq wq,
     exec h installQdep w0 = (inr tt, trq, wq) ->
     present wq (cachedTool this cachedir) = false) ->
  exec h (getQt this packages iArgs cachedir) w0 = (inr tt, tr1, w1) ->
  present w1 (cachedTool this cachedir) = true
  /\ hooks tr1 = [false]
  /\ In (io_mv (installedDir this) cachedir) (calls tr1)
  /\ published "qtdir" tr1 = [path_resolve cachedir].
Proof.
  intros Hc T. pose proof (installer_layout _ _ _ _ T) as Hlayout.
  pose proof (move_relocates _ _ _ _ T) as Hmove.
  pose proof (cleanup_keeps_tool _ _ _ _ T) as Hkeep.
  revert Hlayout Hmove Hkeep. unfold cachedTool, installedDir, installPath.
  intros Hlayout Hmove Hkeep Hempty. apply truthy_true in Hc.
  revert Hempty. open_run. rewrite !Hc. simpl. intros Hempty.
  ok_step h. ok_step h.
  rewrite (existsSync_reads _ _ _ L).
  rewrite (Hempty _ _ eq_refl). simpl.
  repeat (ok_step h).
  intros Heq. inversion Heq; subst; clear Heq.
  match goal with
  | E : h (runInstaller _ _ _ _) _ = (inr ?u, _) |- _ =>
      destruct u; pose proof (Hlayout _ _ _ _ E) as Hq
  end.
  present_forward h present L.
  match goal with
  | E : h (io_mv _ _) _ = (inr ?u, _), Hp : present _ _ = true |- _ =>
      destruct u; pose proof (Hmove _ _ E Hp) as Hm
  end.
  match goal with
  | E : h (rimraf_sync _) _ = _ |- _ => pose proof (Hkeep _ _ _ E Hm) as Hr
  end.
  present_forward h present L.
  split; [assumption|]. split; [reflexivity|]. split; [|reflexivity].
  simpl. tauto.
Qed.

(** C1. On a runner that keeps the laws of [Caches], let a first run
    start on an empty cache (the local tool cache finds nothing under
    ("qt", version, platform key); with a shared cache directory, no build
    tool in its [bin] when the run checks) and complete. Then it was a
    fresh acquisition that stored the installed subtree under exactly that
    key, or moved it to the shared cache directory, and a second run with
    the same arguments makes no call of the acquisition, looks up that key
    (that directory), invokes the hook for a hit once qdep is installed,
    and publishes the same tool root as soon as the hook returns, whether
    or not the rest of the run completes.
    What is taken of the tier in use, for the calls of this installer
    only, is [LocalTier] without a shared cache directory and [SharedTier]
    with one. *)
Theorem second_run_is_a_cache_hit (this : Installer)
  (packages iArgs cachedir : string) (w0 w1 : W) (tr1 : list Event)
  (Hlocal : cachedir = "" -> LocalTier h cached this)
  (Hshared : cachedir <> "" -> SharedTier h present this cachedir)
  (Hentry : cachedir = "" ->
     cached w0 "qt" (version this) (platform_of (platform this)) = "")
  (Htool : cachedir <> "" ->
     forall trq wq,
       exec h installQdep w0 = (inr tt, trq, wq) ->
       present wq (cachedTool this cachedir) = false)
  (Hrun1 : exec h (getQt this packages iArgs cachedir) w0 =
           (inr tt, tr1, w1)) :
  exists toolRoot,
    hooks tr1 = [false]
    /\ In (if JS.truthy cachedir
          then io_mv (installedDir this) cachedir
          else tc_cacheDir (installedDir this) "qt" (version this)
                 (platform_of (platform this)))
         (calls tr1)
    /\ published "qtdir" tr1 = [toolRoot]
    /\ let '(res2, tr2, _) :=
         exec h (getQt this packages iArgs cachedir) w1 in
       never acquisition_call tr2
       /\ (forall trq wq,
             exec h installQdep w1 = (inr tt, trq, wq) ->
             hooks tr2 = [true]
             /\ In (if JS.truthy cachedir
                    then fs_existsSync (cachedTool this cachedir)
                    else tc_find "qt" (version this)
                           (platform_of (platform this)))
                   (calls tr2)
             /\ (none_threw is_hook tr2 ->
                 published "qtdir" tr2 = [toolRoot]))
       /\ (published "qtdir" tr2 = [] \/ published "qtdir" tr2 = [toolRoot])
       /\ (res2 = inr tt -> published "qtdir" tr2 = [toolRoot]).
Proof.
  destruct (JS.truthy cachedir) eqn:Hc.
  - apply truthy_true in Hc.
    destruct (first_run_shared this packages iArgs cachedir w0 w1 tr1 Hc
                (Hshared Hc) (Htool Hc) Hrun1)
      as (Hp & Hh & Hin & Hpub).
    exists (path_resolve cachedir).
    split; [exact Hh|]. split; [exact Hin|]. split; [exact Hpub|].
    apply hit_shared; auto. exact (resolves _ _ _ _ (Hshared Hc)).
  - apply truthy_false in Hc. subst cachedir.
    destruct (first_run_local this packages iArgs w0 w1 tr1
                (Hlocal eq_refl) (Hentry eq_refl) Hrun1)
      as (toolRoot & Hne & Hst & Hh & Hin & Hpub).
    exists toolRoot.
    split; [exact Hh|]. split; [exact Hin|]. split; [exact Hpub|].
    apply hit_local; auto.
Qed.

End Runs.

(** ** The sample runner

    The sample runner keeps the laws of [Caches], so the properties above
    can be read off its runs. *)

Lemma substr_app (a b : string) : JS.substr (String.length a) (a +:+ b) = b.
Proof. induction a as [|c a IH]; [destruct b; reflexivity | exact IH]. Qed.

(** The sample [path.join] normalises as Node's does: doubled slashes and
    single dots go, two dots take a segment away, also the segments of
    the directory joined to. *)
Lemma sample_join_normalises :
  Sample.join ["/home"; "actions"; "temp"] = "/home/actions/temp"
  /\ Sample.join ["/home//actions/"; "./temp"; ""; "qt/"] =
     "/home/actions/temp/qt/"
  /\ Sample.join ["/work/install"; "opt/hostedtoolcache/qt/5.15.2/gcc_64";
                  ".."] = "/work/install/opt/hostedtoolcache/qt/5.15.2"
  /\ Sample.join ["/home/actions/temp/qt";
                  "../../../../cache/qt/bin/qmake"] = "/cache/qt/bin/qmake"
  /\ Sample.join ["a"; "../../b"] = "../b"
  /\ Sample.join [""; ""] = "."
  /\ Sample.resolve "install/../cache//qt/" = "/work/cache/qt".
Proof. repeat split; reflexivity. Qed.

Lemma exists_in_iff (w : Sample.World) (p : string) :
  Sample.exists_in w p = true <-> In (Sample.segments_of p) (Sample.files w).
Proof.
  unfold Sample.exists_in. rewrite existsb_exists. split.
  - intros (f & Hf & He). apply bool_decide_eq_true in He. now subst.
  - intros Hp. exists (Sample.segments_of p).
    split; [exact Hp | now apply bool_decide_eq_true].
Qed.

Lemma sample_caches (os : string) (env : string -> option string)
  (qt : string) (broken : Call -> option string) :
  (forall t v a, broken (tc_find t v a) = None) ->
  (forall p, broken (fs_existsSync p) = None) ->
  @Caches (Sample.host os env) Sample.World
    (Sample.outside qt broken) Sample.entry Sample.exists_in.
Proof.
  intros Hfind Hexists. split.
  - intros c w r w' E Hrm t v a. unfold Sample.outside in E.
    destruct (broken c); [now inversion E|].
    destruct c; try discriminate Hrm;
      try match type of E with
          | context [Sample.exists_in ?w ?p] => destruct (Sample.exists_in w p)
          end;
      inversion E; subst; reflexivity.
  - intros w p. unfold Sample.outside. now rewrite Hexists.
  - intros c w r w' p E Hrm Hp. unfold Sample.outside in E.
    destruct (broken c); [now inversion E; subst|].
    apply exists_in_iff in Hp. apply exists_in_iff.
    destruct c; try discriminate Hrm;
      try match type of E with
          | context [Sample.exists_in ?w ?p] => destruct (Sample.exists_in w p)
          end;
      inversion E; subst; simpl; auto.
Qed.

(** The local tool cache of the sample runner, for Qt 5.15.2 and
    gcc_64. *)
Lemma sample_local_tier :
  @LocalTier Sample.linux Sample.World (Sample.outside "5.15.2" Sample.sound)
    Sample.entry Sample.this.
Proof.
  split.
  - reflexivity.
  - intros w dir w' [= <- <-]. split; [discriminate|].
    unfold Sample.entry.
    change (Sample.explicit (version Sample.this)) with true.
    cbn [Sample.cache]. now rewrite lookup_insert_eq.
  - intros w r w' [= _ <-]. reflexivity.
Qed.

(** The shared cache directory /cache/qt on the sample runner. *)
Lemma sample_shared_tier :
  @SharedTier Sample.linux Sample.naming Sample.World
    (Sample.outside "5.15.2" Sample.sound) Sample.exists_in
    Sample.this "/cache/qt".
Proof.
  split.
  - discriminate.
  - intros w tool args w' [= <-]. apply exists_in_iff. left. reflexivity.
  - intros w w' [= <-] Hp. apply exists_in_iff in Hp. apply exists_in_iff.
    exact (in_map _ _ _ Hp).
  - intros w r w' [= _ <-] Hp. apply exists_in_iff in Hp.
    apply exists_in_iff. apply filter_In. split; [exact Hp | reflexivity].
Qed.

Lemma run_eq (broken : Call -> option string) (cachedir : string)
  (w : Sample.World) (res : string + unit) :
  fst (fst (Sample.run broken cachedir w)) = res ->
  Sample.run broken cachedir w =
  (res, snd (fst (Sample.run broken cachedir w)),
   snd (Sample.run broken cachedir w)).
Proof.
  intros <-. now destruct (Sample.run broken cachedir w) as [[res tr] w'].
Qed.

(** C1, on the sample runner: two runs on a fresh runner, with the local
    tool cache and with the shared cache directory /cache/qt. The second
    run invokes the hook for a hit and publishes the tool root of the
    first; it ends at the link, which the first run has made. *)
Lemma second_run_is_a_cache_hit_witness :
  let second cachedir :=
    Sample.run Sample.sound cachedir
      (snd (Sample.run Sample.sound cachedir Sample.fresh)) in
  (hooks (snd (fst (second ""))) = [true]
   /\ published "qtdir" (snd (fst (second ""))) =
      ["/opt/hostedtoolcache/qt/5.15.2/gcc_64"]
   /\ fst (fst (second "")) =
      inl "EEXIST: file already exists, symlink install_link")
  /\ (hooks (snd (fst (second "/cache/qt"))) = [true]
      /\ published "qtdir" (snd (fst (second "/cache/qt"))) = ["/cache/qt"]
      /\ fst (fst (second "/cache/qt")) =
         inl "EEXIST: file already exists, symlink install_link").
Proof.
  cbv zeta.
  assert (Hlink : forall tr : list Event,
    (exists target,
       failures tr =
       [(fs_symlink target "install_link" "dir",
         "EEXIST: file already exists, symlink install_link")]) ->
    none_threw is_hook tr).
  { intros tr [target H] c e Hin. rewrite H in Hin.
    destruct Hin as [[= <- <-]|[]]. reflexivity. }
  split.
  - pose proof (@second_run_is_a_cache_hit Sample.linux Sample.naming
      Sample.World (Sample.outside "5.15.2" Sample.sound)
      Sample.entry Sample.exists_in
      (sample_caches "linux" Sample.bare "5.15.2" Sample.sound
         ltac:(reflexivity) ltac:(reflexivity))
      Sample.this "" "" "" Sample.fresh
      (snd (Sample.run Sample.sound "" Sample.fresh))
      (snd (fst (Sample.run Sample.sound "" Sample.fresh)))
      (fun _ => sample_local_tier)
      ltac:(intros H; now contradiction H)
      ltac:(reflexivity)
      ltac:(intros H; now contradiction H)
      (run_eq Sample.sound "" Sample.fresh (inr tt) eq_refl))
      as (toolRoot & _ & _ & Hpub & Hsecond).
    vm_compute in Hpub. injection Hpub as <-.
    fold (Sample.run Sample.sound ""
            (snd (Sample.run Sample.sound "" Sample.fresh))) in Hsecond.
    destruct (Sample.run Sample.sound ""
                (snd (Sample.run Sample.sound "" Sample.fresh)))
      as [[res2 tr2] w2] eqn:E2.
    destruct Hsecond as (_ & Hhook & _ & _). cbn [fst snd].
    edestruct Hhook as (Hh & _ & Hsame); [vm_compute; reflexivity|].
    split; [exact Hh|]. split.
    + apply Hsame, Hlink. eexists.
      change tr2 with (snd (fst (res2, tr2, w2))). rewrite <- E2.
      vm_compute. reflexivity.
    + change res2 with (fst (fst (res2, tr2, w2))). rewrite <- E2.
      vm_compute. reflexivity.
  - pose proof (@second_run_is_a_cache_hit Sample.linux Sample.naming
      Sample.World (Sample.outside "5.15.2" Sample.sound)
      Sample.entry Sample.exists_in
      (sample_caches "linux" Sample.bare "5.15.2" Sample.sound
         ltac:(reflexivity) ltac:(reflexivity))
      Sample.this "" "" "/cache/qt" Sample.fresh
      (snd (Sample.run Sample.sound "/cache/qt" Sample.fresh))
      (snd (fst (Sample.run Sample.sound "/cache/qt" Sample.fresh)))
      ltac:(intros H; discriminate H)
      (fun _ => sample_shared_tier)
      ltac:(intros H; discriminate H)
      ltac:(intros _ trq wq [= <- <-]; reflexivity)
      (run_eq Sample.sound "/cache/qt" Sample.fresh (inr tt) eq_refl))
      as (toolRoot & _ & _ & Hpub & Hsecond).
    vm_compute in Hpub. injection Hpub as <-.
    fold (Sample.run Sample.sound "/cache/qt"
            (snd (Sample.run Sample.sound "/cache/qt" Sample.fresh)))
      in Hsecond.
    destruct (Sample.run Sample.sound "/cache/qt"
                (snd (Sample.run Sample.sound "/cache/qt" Sample.fresh)))
      as [[res2 tr2] w2] eqn:E2.
    destruct Hsecond as (_ & Hhook & _ & _). cbn [fst snd].
    edestruct Hhook as (Hh & _ & Hsame); [vm_compute; reflexivity|].
    split; [exact Hh|]. split.
    + apply Hsame, Hlink. eexists.
      change tr2 with (snd (fst (res2, tr2, w2))). rewrite <- E2.
      vm_compute. reflexivity.
    + change res2 with (fst (fst (res2, tr2, w2))). rewrite <- E2.
      vm_compute. reflexivity.
Defined.

Lemma hooks_app (a b : list Event) : hooks (a ++ b) = hooks a ++ hooks b.
Proof. unfold hooks, calls. now rewrite !omap_app. Qed.

Lemma hooks_hook p hit answer rest :
  hooks (Called (runPreInstaller p hit) answer :: rest) = hit :: hooks rest.
Proof. reflexivity. Qed.

(** C2, witness: the sample runner with the build tool in /cache/qt/bin,
    and a fresh one without a shared cache directory. *)
Lemma cache_resolution_witness :
  (exists tr,
     exec (Sample.outside "5.15.2" Sample.sound)
       (@checkCaches Sample.linux Sample.naming Sample.this "/cache/qt")
       (Sample.touch "/cache/qt/bin/qmake" Sample.fresh) =
     (inr (Some "/cache/qt"), tr,
      Sample.touch "/cache/qt/bin/qmake" Sample.fresh)
     /\ never is_tc_find tr)
  /\ (exists toolPath tr,
        exec (Sample.outside "5.15.2" Sample.sound)
          (@checkCaches Sample.linux Sample.naming Sample.this "")
          Sample.fresh = (inr toolPath, tr, Sample.fresh)
        /\ JS.truthy_opt toolPath = false).
Proof.
  split.
  - apply (@cache_resolution Sample.linux Sample.naming Sample.World
             (Sample.outside "5.15.2" Sample.sound) Sample.this "/cache/qt"
             (Sample.touch "/cache/qt/bin/qmake" Sample.fresh));
      [discriminate | reflexivity].
  - apply (@cache_resolution Sample.linux Sample.naming Sample.World
             (Sample.outside "5.15.2" Sample.sound) Sample.this ""
             Sample.fresh); reflexivity.
Defined.

(** C5, as stated, fails: a run on a runner without python ends in the
    installation of qdep, before the caches are checked, and invokes the
    hook neither for a hit nor for a miss. *)
Lemma run_without_python_invokes_no_hook :
  let aborted := Sample.run Sample.python_missing "" Sample.fresh in
  fst (fst aborted) = inl "Unable to locate executable file: python"
  /\ calls (snd (fst aborted)) = [io_which "python" true]
  /\ hooks (snd (fst aborted)) = []
  /\ hooks (snd (fst aborted)) <> [true]
  /\ hooks (snd (fst aborted)) <> [false].
Proof. cbv zeta. repeat split; try reflexivity; discriminate. Qed.

(** C5, witness: the first run on a fresh sample runner invokes the hook
    for a miss, and nothing else. *)
Lemma one_hook_per_run_witness :
  hooks (snd (fst (Sample.run Sample.sound "" Sample.fresh))) = [false].
Proof.
  pose proof (@one_hook_per_run Sample.linux Sample.naming Sample.World
    (Sample.outside "5.15.2" Sample.sound) Sample.this "" "" ""
    Sample.fresh) as H.
  fold (Sample.run Sample.sound "" Sample.fresh) in H.
  destruct (Sample.run Sample.sound "" Sample.fresh) as [[res tr] w'].
  destruct H as (_ & _ & H).
  edestruct (H (Some "")) as (answer & rest & -> & H0 & Hrest & _);
    [vm_compute; reflexivity|].
  cbn [fst snd]. rewrite hooks_app, H0, hooks_hook, Hrest. reflexivity.
Defined.

(** C6, witness: on the sample runner with a failing vendor installer the
    run ends with the installer's error, nothing cached, nothing
    published. *)
Lemma failed_acquisition_caches_nothing_witness :
  let failed := Sample.run Sample.installer_fails "" Sample.fresh in
  fst (fst failed) = inl "The process failed with exit code 1"
  /\ never cache_write (snd (fst failed))
  /\ never is_output (snd (fst failed))
  /\ forall t v a, Sample.entry (snd failed) t v a = "".
Proof.
  cbv zeta.
  pose proof (@failed_acquisition_caches_nothing Sample.linux Sample.naming
    Sample.World (Sample.outside "5.15.2" Sample.installer_fails)
    Sample.entry Sample.exists_in
    Sample.this "" "" "" Sample.fresh) as H.
  fold (Sample.run Sample.installer_fails "" Sample.fresh) in H.
  destruct (Sample.run Sample.installer_fails "" Sample.fresh)
    as [[res tr] w'] eqn:E.
  assert (Hf : exists c,
             failures tr = [(c, "The process failed with exit code 1")]
             /\ acquisition_step c = true).
  { eexists. split.
    - change tr with (snd (fst (res, tr, w'))). rewrite <- E.
      vm_compute. reflexivity.
    - reflexivity. }
  destruct Hf as (c & Hf & Hstep).
  destruct (H c "The process failed with exit code 1") as [Hres Hrest];
    [rewrite Hf; left; reflexivity|].
  cbn [fst snd]. split; [exact Hres|].
  destruct (Hrest Hstep) as (Hw & Ho & Hc).
  split; [exact Hw|]. split; [exact Ho|].
  intros t v a.
  rewrite (Hc (sample_caches "linux" Sample.bare "5.15.2"
                 Sample.installer_fails
                 ltac:(reflexivity) ltac:(reflexivity))).
  unfold Sample.entry. now destruct (Sample.explicit v).
Defined.

(** C8, on the sample runner: a completed run for the key android_arm64
    sets the output "tests" to "false", one for linux-gcc_64 to "true". *)
Lemma tests_output_policy_witness :
  let tests_of p :=
    published "tests"
      (snd (fst (exec (Sample.outside "5.15.2" Sample.sound)
                   (@getQt Sample.linux Sample.naming
                      {| version := "5.15.2"; platform := p;
                         tempDir := "/tmp" |} "" "" "")
                   Sample.fresh))) in
  shouldTest {| version := "5.15.2";
                platform := AndroidPlatform "android_arm64";
                tempDir := "/tmp" |} = false
  /\ shouldTest {| version := "5.15.2";
                   platform := LinuxPlatform "linux-gcc_64";
                   tempDir := "/tmp" |} = true
  /\ tests_of (AndroidPlatform "android_arm64") = ["false"]
  /\ tests_of (LinuxPlatform "linux-gcc_64") = ["true"].
Proof.
  cbv zeta.
  assert (Hlinux : ~ names_untested_target "linux-gcc_64").
  { intros [H|[H|[H|H]]]; apply includes_iff in H; discriminate H. }
  assert (Handroid : names_untested_target "android_arm64").
  { left. exists "", "_arm64". reflexivity. }
  pose proof (@tests_output_policy Sample.linux Sample.naming Sample.World
    (Sample.outside "5.15.2" Sample.sound)
    {| version := "5.15.2"; platform := AndroidPlatform "android_arm64";
       tempDir := "/tmp" |} "" "" "" Sample.fresh) as (Ha & _ & Hra).
  pose proof (@tests_output_policy Sample.linux Sample.naming Sample.World
    (Sample.outside "5.15.2" Sample.sound)
    {| version := "5.15.2"; platform := LinuxPlatform "linux-gcc_64";
       tempDir := "/tmp" |} "" "" "" Sample.fresh) as (_ & Hl & Hrl).
  cbn [platform platform_of] in *.
  split; [apply Ha; exact Handroid|]. split; [apply Hl; exact Hlinux|].
  split.
  - destruct (exec _ _ _) as [[res tr] w'] eqn:E in Hra |- *.
    apply (f_equal (fun r => fst (fst r))) in E. vm_compute in E.
    destruct Hra as [_ Hra]. cbn [fst snd].
    apply Hra; [now rewrite <- E | exact Handroid].
  - destruct (exec _ _ _) as [[res tr] w'] eqn:E in Hrl |- *.
    apply (f_equal (fun r => fst (fst r))) in E. vm_compute in E.
    destruct Hrl as [_ Hrl]. cbn [fst snd].
    apply Hrl; [now rewrite <- E | exact Hlinux].
Defined.

(** * Further properties *)

(** ** Order of calls, and the root of a path *)

Lemma guarded_follows (f g : Call -> bool) (l : list Call) :
  guarded f g false l = true -> follows f g l.
Proof.
  assert (Hgen : forall seen pre c post,
    guarded f g seen (pre ++ c :: post) = true -> g c = true ->
    seen = true \/ Exists (fun c' => f c' = true) pre).
  { intros seen pre. revert seen.
    induction pre as [|d pre IH]; intros seen c post Hg Hc; simpl in Hg.
    - rewrite Hc in Hg. apply andb_true_iff in Hg as [-> _]. now left.
    - apply andb_true_iff in Hg as [_ Hg].
      destruct (IH _ _ _ Hg Hc) as [Hs | He].
      + apply orb_true_iff in Hs as [-> | Hf]; [now left|].
        right. now constructor.
      + right. now apply Exists_cons_tl. }
  intros Hg pre c post -> Hc.
  destruct (Hgen false pre c post Hg Hc) as [Hs | He]; [discriminate | exact He].
Qed.

Lemma stripped_root (os toolRoot : string) :
  let stripped :=
    if String.eqb os "win32"
    then JS.substr 3 toolRoot else JS.substr 1 toolRoot in
  (os = "win32" ->
   forall drive rest,
     toolRoot = drive +:+ rest -> String.length drive = 3 ->
     stripped = rest)
  /\ (os <> "win32" ->
      forall c rest, toolRoot = String c rest -> stripped = rest)
  /\ (toolRoot = "" -> stripped = "").
Proof.
  cbv zeta. split; [|split].
  - intros -> drive rest -> Hlen. cbn [String.eqb Ascii.eqb].
    change (String.eqb "win32" "win32") with true. cbv iota.
    rewrite <- Hlen. apply substr_app.
  - intros Hos c rest ->. apply String.eqb_neq in Hos. now rewrite Hos.
  - intros ->. now destruct (String.eqb os "win32").
Qed.

(** ** The package string and the constructor *)

(** X1. The caller modules carry the package string unaltered: the module
    list is the base module, one module per entry, and the extras, where
    the entries, joined with commas, are the package string again; no
    entry holds a comma, none is trimmed or dropped, and there is one
    more entry than the string has commas. *)
Theorem package_entries_round_trip `{Naming} (this : Installer)
  (packages : string) :
  exists entries,
    modules this packages =
      [module_id (qtVer this) (installPlatform (platform this))]
      ++ map (module_id (qtVer this)) entries
      ++ extras (platform this)
    /\ String.concat "," entries = packages
    /\ Forall (fun entry => JS.includes "," entry = false) entries
    /\ length entries = S (count_char "," packages)
    /\ length (modules this packages) =
       2 + count_char "," packages + length (extras (platform this)).
Proof.
  exists (JS.split "," packages).
  split; [now rewrite modules_eq|].
  split; [apply concat_split|].
  split; [apply split_entries|].
  split; [apply split_length|].
  rewrite modules_eq. cbn [length]. rewrite length_app, length_map, split_length.
  lia.
Qed.

(** X12. An installer the constructor has built keeps the version and the
    platform key it was given, so these are the key of the local tool
    cache; its temporary directory is RUNNER_TEMP whenever that is set and
    not empty; the host is one of linux, win32 and darwin; the Android
    platform is only built on linux and never tests, and the MinGW
    platform only on win32 for a key containing "mingw". *)
Theorem constructed_installer `{Node} (ver key : string) (this : Installer)
  (Hnew : new_Installer ver key = inr this) :
  version this = ver
  /\ platform_of (platform this) = key
  /\ tempDir this = initTempDir key
  /\ (os_platform = "linux" \/ os_platform = "win32" \/
      os_platform = "darwin")
  /\ (forall T, process_env "RUNNER_TEMP" = Some T -> T <> "" ->
      tempDir this = T)
  /\ (forall k, platform this = AndroidPlatform k ->
      os_platform = "linux" /\ shouldTest this = false)
  /\ (forall k v, platform this = MingwPlatform k v ->
      os_platform = "win32" /\ occurs_in "mingw" key).
Proof.
  assert (Htemp : forall T, process_env "RUNNER_TEMP" = Some T -> T <> "" ->
                  initTempDir key = T).
  { intros T HT Hne. unfold initTempDir. rewrite HT.
    destruct T; [contradiction | reflexivity]. }
  unfold new_Installer in Hnew.
  destruct (String.eqb_spec os_platform "linux") as [Hl|Hl];
    [destruct (JS.includes "android" key) eqn:Ha|
     destruct (String.eqb_spec os_platform "win32") as [Hw|Hw];
       [destruct (JS.includes "mingw" key) eqn:Hm|
        destruct (String.eqb_spec os_platform "darwin") as [Hd|Hd]]];
    inversion Hnew; subst this; cbn [version platform tempDir platform_of];
    (split; [reflexivity|]); (split; [reflexivity|]);
    (split; [reflexivity|]); (split; [tauto|]); (split; [exact Htemp|]);
    (split; [ intros k Hk; inversion Hk; subst
            | intros k v Hk; inversion Hk; subst ]).
  - split; [assumption|]. unfold shouldTest. cbn [platform platform_of].
    now rewrite Ha.
  - split; [assumption|]. now apply includes_iff.
Qed.

(** X12, witness: an Android key on the sample linux host. *)
Lemma constructed_installer_witness :
  let built :=
    {| version := "5.15.2"; platform := AndroidPlatform "android_arm64";
       tempDir := "/home/actions/temp" |} in
  @new_Installer Sample.linux "5.15.2" "android_arm64" = inr built
  /\ version built = "5.15.2"
  /\ platform_of (platform built) = "android_arm64"
  /\ shouldTest built = false.
Proof.
  cbv zeta. split; [reflexivity|].
  destruct (@constructed_installer Sample.linux "5.15.2" "android_arm64"
              {| version := "5.15.2";
                 platform := AndroidPlatform "android_arm64";
                 tempDir := "/home/actions/temp" |} eq_refl)
    as (Hv & Hk & _ & _ & _ & Ha & _).
  split; [exact Hv|]. split; [exact Hk|]. exact (proj2 (Ha _ eq_refl)).
Defined.

(** ** More on the runs of [getQt] *)

Section MoreRuns.

Context {node : Node} {naming : Naming} {W : Type} (h : Handler W).

#[local] Arguments generateScript : simpl never.
#[local] Arguments shouldTest : simpl never.
#[local] Arguments JS.split : simpl never.
#[local] Arguments JS.substr : simpl never.
#[local] Arguments JS.truthy : simpl never.

(** X6. Every run starts by looking for python and, when it is found,
    installs qdep with it; when either call throws, the run ends with that
    error and makes no other call: no cache is consulted, no hook is
    invoked. *)
Theorem qdep_is_installed_first (this : Installer)
  (packages iArgs cachedir : string) (w : W) :
  let '(res, tr, w') := exec h (getQt this packages iArgs cachedir) w in
  exists found rest,
    tr = Called (io_which "python" true) found :: rest
    /\ (forall e, found = inl e -> res = inl e /\ rest = [])
    /\ (forall python, found = inr python ->
        exists installed rest',
          rest = Logged Debug ("Using python: " +:+ python)
                 :: Called (ex_exec python ["-m"; "pip"; "install"; "qdep"])
                      installed
                 :: rest'
          /\ (forall e, installed = inl e -> res = inl e /\ rest' = [])).
Proof.
  unfold getQt, installQdep. simpl.
  step h; simpl.
  - eexists. eexists. split; [reflexivity|]. split.
    + intros e' [= <-]. split; reflexivity.
    + intros python [=].
  - step h; simpl.
    + eexists. eexists. split; [reflexivity|]. split; [intros e' [=]|].
      intros python [= <-]. eexists. eexists. split; [reflexivity|].
      intros e' [= <-]. split; reflexivity.
    + destruct (exec h _ w1) as [[res tr] w'].
      eexists. eexists. split; [reflexivity|]. split; [intros e' [=]|].
      intros python [= <-]. eexists. eexists. split; [reflexivity|].
      intros e' [=].
Qed.

(** X2. The vendor installer is run at most once in a run, as the file
    [tc.downloadTool] answered, on the installation root
    [path.join(tempDir, "qt")], with the arguments "--script", the script
    path, and then every entry of [iArgs.split(" ")]: at least three
    arguments, so for an empty [iArgs] an empty third one. *)
Theorem installer_arguments (this : Installer)
  (packages iArgs cachedir : string) (w : W) :
  (3 <= length (["--script";
                 path_join [tempDir this; "qt-installer-script.qs"]]
                ++ JS.split " " iArgs)
   /\ (iArgs = "" -> JS.split " " iArgs = [""]))
  /\ let '(res, tr, _) := exec h (getQt this packages iArgs cachedir) w in
     installer_runs tr = []
     \/ exists downloaded,
          downloads tr = [downloaded]
          /\ installer_runs tr =
             [(downloaded,
               ["--script"; path_join [tempDir this; "qt-installer-script.qs"]]
               ++ JS.split " " iArgs,
               installPath this)].
Proof.
  split.
  - split; [|now intros ->].
    rewrite length_app, split_length. simpl. lia.
  - unfold installPath. all_runs h; simpl;
      first [left; reflexivity | right; eexists; split; reflexivity].
Qed.

(** X3. The installer is never run before its script is written: in every
    run the script file follows the creation of the home directory and
    precedes the installer; it is written once, to the path handed to the
    installer after "--script", with the text of [generateScript] for the
    installation root and the packages. *)
Theorem script_written_before_installer (this : Installer)
  (packages iArgs cachedir : string) (w : W) :
  let '(res, tr, _) := exec h (getQt this packages iArgs cachedir) w in
  follows is_writeFile is_runInstaller (calls tr)
  /\ follows is_mkdir is_writeFile (calls tr)
  /\ (writes tr = []
      \/ writes tr =
           [(path_join [tempDir this; "qt-installer-script.qs"],
             generateScript this (installPath this) packages)]
         /\ mkdirs tr = [path_join [tempDir this; "home"]])
  /\ (installer_runs tr = [] \/ writes tr <> []).
Proof.
  unfold installPath. all_runs h; simpl;
    (split; [apply guarded_follows; reflexivity|]);
    (split; [apply guarded_follows; reflexivity|]);
    (split; [first [left; reflexivity | right; split; reflexivity]|]);
    first [left; reflexivity | right; discriminate].
Qed.

(** X4. qdep is prepared after the installer has run and before the
    installation is relocated: [prfgen] runs with the qdep that
    [io.which] found, for the build tool below the temporary installation
    root, and no move or store happens before it. *)
Theorem qdep_prepared_before_relocation (this : Installer)
  (packages iArgs cachedir : string) (w : W) :
  let '(res, tr, _) := exec h (getQt this packages iArgs cachedir) w in
  follows is_prfgen cache_write (calls tr)
  /\ follows is_runInstaller is_prfgen (calls tr)
  /\ (prfgens tr = []
      \/ exists qdep,
           qdeps tr = [qdep]
           /\ prfgens tr =
              [(qdep,
                ["--qmake";
                 path_join [installPath this; version this;
                            platform_of (platform this); "bin";
                            qmakeName (platform this)]])]).
Proof.
  unfold installPath. all_runs h; simpl;
    (split; [(apply guarded_follows; reflexivity)|]); (split; [(apply guarded_follows; reflexivity)|]);
    first [left; reflexivity | right; eexists; split; reflexivity].
Qed.

(** X5. The temporary installation is removed only after it has been
    relocated, and it is the installation root that is removed; when the
    move or the store throws, the run ends with that error, removes
    nothing and publishes nothing. *)
Theorem cleanup_follows_relocation (this : Installer)
  (packages iArgs cachedir : string) (w : W) :
  let '(res, tr, _) := exec h (getQt this packages iArgs cachedir) w in
  follows cache_write is_rimraf (calls tr)
  /\ (rimrafs tr = [] \/ rimrafs tr = [installPath this])
  /\ forall c e, In (c, e) (failures tr) -> cache_write c = true ->
       res = inl e /\ rimrafs tr = [] /\ never is_output tr.
Proof.
  unfold installPath. all_runs h; simpl;
    (split; [(apply guarded_follows; reflexivity)|]);
    (split; [first [left; reflexivity | right; reflexivity]|]);
    failure_cases;
    (let Hs := fresh "Hs" in
     intros Hs;
     first [ discriminate Hs
           | split; [reflexivity|]; split; [reflexivity | never_holds] ]).
Qed.

(** X7. With a shared cache directory the local tool cache is never
    used, neither looked up nor stored into; the only move is that of the
    installed subtree to the directory; and the tool root, when it is
    published, is the resolved directory, on a hit as after an
    acquisition. *)
Theorem shared_directory_run (this : Installer)
  (packages iArgs cachedir : string) (w : W)
  (Hc : cachedir <> "") :
  let '(res, tr, _) := exec h (getQt this packages iArgs cachedir) w in
  never is_local_tier tr
  /\ (moves tr = [] \/ moves tr = [(installedDir this, cachedir)])
  /\ (published "qtdir" tr = [] \/
      published "qtdir" tr = [path_resolve cachedir])
  /\ (res = inr tt -> published "qtdir" tr = [path_resolve cachedir]).
Proof.
  apply truthy_true in Hc. unfold installedDir, installPath.
  open_run. rewrite !Hc. go h; simpl;
    (split; [never_holds|]);
    (split; [first [left; reflexivity | right; reflexivity]|]);
    (split; [first [left; reflexivity | right; reflexivity]|]);
    (let Hres := fresh "Hres" in
     intros Hres; first [discriminate Hres | reflexivity]).
Qed.

(** X8. Without a shared cache directory no path is tested and nothing
    is moved; the only store is that of the installed subtree under
    ("qt", version, platform key); and the tool root, when it is
    published, is what the tool cache answered: the directory [tc.find]
    found when that is not empty, and else the directory [tc.cacheDir]
    returned. *)
Theorem local_cache_run (this : Installer)
  (packages iArgs : string) (w : W) :
  let '(res, tr, _) := exec h (getQt this packages iArgs "") w in
  never is_shared_tier tr
  /\ (stores tr = []
      \/ stores tr = [(installedDir this, "qt", version this,
                       platform_of (platform this))])
  /\ (published "qtdir" tr = []
      \/ (exists r, found tr = [r] /\ JS.truthy r = true
                    /\ stores tr = [] /\ published "qtdir" tr = [r])
      \/ (exists r s, found tr = [r] /\ JS.truthy r = false
                      /\ stored tr = [s] /\ published "qtdir" tr = [s])).
Proof.
  unfold installedDir, installPath.
  open_run. change (JS.truthy "") with false. go h; simpl;
    (split; [never_holds|]);
    (split; [first [left; reflexivity | right; reflexivity]|]);
    first [ left; reflexivity
          | right; left; eexists;
            split; [reflexivity|]; split; [assumption|];
            split; reflexivity
          | right; right; eexists; eexists;
            split; [reflexivity|]; split; [assumption|];
            split; reflexivity ].
Qed.

(** X9. A run sets its outputs in the order qtdir, make, tests,
    testflags, installdir, each at most once; a run that completes has
    set all five, with the values of the platform, of [shouldTest] and of
    [setupInstallDir], and has added [path.join(qtdir, "bin")] to the
    path. *)
Theorem outputs_of_a_run (this : Installer)
  (packages iArgs cachedir : string) (w : W) :
  let '(res, tr, _) := exec h (getQt this packages iArgs cachedir) w in
  (exists rest,
     ["qtdir"; "make"; "tests"; "testflags"; "installdir"] =
     map fst (outputs tr) ++ rest)
  /\ (res = inr tt ->
      exists toolRoot dirs,
        installDirs tr = [dirs]
        /\ outputs tr =
           [("qtdir", toolRoot);
            ("make", makeName (platform this));
            ("tests", JS.String_of_bool (shouldTest this));
            ("testflags", testFlags (platform this));
            ("installdir", snd dirs)]
        /\ addedPaths tr = [path_join [toolRoot; "bin"]]).
Proof.
  all_runs h; simpl;
    (split; [eexists; simpl; reflexivity|]);
    (let Hres := fresh "Hres" in
     intros Hres;
     first [ discriminate Hres
           | eexists; eexists; split; [reflexivity|]; split; reflexivity ]).
Qed.

(** X10. The build tool is tried only after the tool root is published:
    when [qmake -version] or [qmake -query] throws, the run ends with that
    error after the post-installer has run, with the output qtdir set and
    its [bin] added to the path, and with no other output. *)
Theorem smoke_test_failure_after_publication (this : Installer)
  (packages iArgs cachedir : string) (w : W) :
  let '(res, tr, _) := exec h (getQt this packages iArgs cachedir) w in
  forall c e, In (c, e) (failures tr) -> is_smoke_test c = true ->
    res = inl e
    /\ In (runPostInstaller (platform this)) (calls tr)
    /\ exists toolRoot,
         outputs tr = [("qtdir", toolRoot)]
         /\ addedPaths tr = [path_join [toolRoot; "bin"]].
Proof.
  all_runs h; failure_cases;
    (let Hs := fresh "Hs" in
     intros Hs;
     first [ discriminate Hs
           | split; [reflexivity|]; split; [simpl; tauto|];
             eexists; split; reflexivity ]).
Qed.

(** X11. The link [install_link] is made last but for the output
    installdir: a directory link, after [mkdirP] of the directory that
    [setupInstallDir] answered, to the parent of the tool root rebased on
    that directory, where the tool root loses its first three characters
    (the drive) on win32 and its first character (the root slash)
    elsewhere; an empty tool root stays empty. *)
Theorem install_link_target (this : Installer)
  (packages iArgs cachedir : string) (w : W) :
  let '(res, tr, _) := exec h (getQt this packages iArgs cachedir) w in
  symlinks tr = []
  \/ exists toolRoot dirs stripped,
       published "qtdir" tr = [toolRoot]
       /\ installDirs tr = [dirs]
       /\ mkdirPs tr = [fst dirs]
       /\ symlinks tr =
          [(path_join [fst dirs; stripped; ".."], "install_link", "dir")]
       /\ (os_platform = "win32" ->
           forall drive rest,
             toolRoot = drive +:+ rest -> String.length drive = 3 ->
             stripped = rest)
       /\ (os_platform <> "win32" ->
           forall c rest, toolRoot = String c rest -> stripped = rest)
       /\ (toolRoot = "" -> stripped = "").
Proof.
  all_runs h; simpl;
    first [ left; reflexivity
          | right; eexists; eexists; eexists; split; [reflexivity|];
            split; [reflexivity|]; split; [reflexivity|];
            split; [reflexivity|]; exact (stripped_root os_platform _) ].
Qed.

End MoreRuns.

(** X7, witness: a run of the sample runner with the shared cache
    directory /cache/qt. *)
Lemma shared_directory_run_witness :
  let shared := Sample.run Sample.sound "/cache/qt" Sample.fresh in
  never is_local_tier (snd (fst shared))
  /\ published "qtdir" (snd (fst shared)) = ["/cache/qt"].
Proof.
  cbv zeta.
  pose proof (@shared_directory_run Sample.linux Sample.naming Sample.World
    (Sample.outside "5.15.2" Sample.sound) Sample.this "" "" "/cache/qt"
    Sample.fresh ltac:(discriminate)) as H.
  fold (Sample.run Sample.sound "/cache/qt" Sample.fresh) in H.
  destruct (Sample.run Sample.sound "/cache/qt" Sample.fresh)
    as [[res tr] w'] eqn:E.
  apply (f_equal (fun r => fst (fst r))) in E. vm_compute in E.
  destruct H as (Hlocal & _ & _ & Hpub). cbn [fst snd].
  split; [exact Hlocal|]. apply Hpub. now rewrite <- E.
Defined.

(** X5, witness: on a sample runner whose tool cache cannot be written
    the run ends with that error, removes and publishes nothing. *)
Lemma cleanup_follows_relocation_witness :
  let failed := Sample.run Faults.relocation_fails "" Sample.fresh in
  fst (fst failed) = inl "EACCES: permission denied"
  /\ rimrafs (snd (fst failed)) = []
  /\ never is_output (snd (fst failed)).
Proof.
  cbv zeta.
  pose proof (@cleanup_follows_relocation Sample.linux Sample.naming
    Sample.World (Sample.outside "5.15.2" Faults.relocation_fails)
    Sample.this "" "" "" Sample.fresh) as H.
  fold (Sample.run Faults.relocation_fails "" Sample.fresh) in H.
  destruct (Sample.run Faults.relocation_fails "" Sample.fresh)
    as [[res tr] w'] eqn:E.
  destruct H as (_ & _ & H).
  assert (Hf : exists c,
             failures tr = [(c, "EACCES: permission denied")]
             /\ cache_write c = true).
  { eexists. split.
    - change tr with (snd (fst (res, tr, w'))). rewrite <- E.
      vm_compute. reflexivity.
    - reflexivity. }
  destruct Hf as (c & Hf & Hc).
  apply (H c "EACCES: permission denied");
    [rewrite Hf; left; reflexivity | exact Hc].
Defined.

(** X10, witness: on a sample runner whose qmake fails, the run ends with
    that error with the tool root of the tool cache published and nothing
    else. *)
Lemma smoke_test_failure_after_publication_witness :
  let failed := Sample.run Faults.qmake_fails "" Sample.fresh in
  fst (fst failed) = inl "The process qmake failed with exit code 1"
  /\ outputs (snd (fst failed)) =
     [("qtdir", "/opt/hostedtoolcache/qt/5.15.2/gcc_64")]
  /\ addedPaths (snd (fst failed)) =
     ["/opt/hostedtoolcache/qt/5.15.2/gcc_64/bin"].
Proof.
  cbv zeta.
  pose proof (@smoke_test_failure_after_publication Sample.linux
    Sample.naming Sample.World (Sample.outside "5.15.2" Faults.qmake_fails)
    Sample.this "" "" "" Sample.fresh) as H.
  fold (Sample.run Faults.qmake_fails "" Sample.fresh) in H.
  destruct (Sample.run Faults.qmake_fails "" Sample.fresh)
    as [[res tr] w'] eqn:E.
  assert (Hf : exists c,
             failures tr = [(c, "The process qmake failed with exit code 1")]
             /\ is_smoke_test c = true).
  { eexists. split.
    - change tr with (snd (fst (res, tr, w'))). rewrite <- E.
      vm_compute. reflexivity.
    - reflexivity. }
  destruct Hf as (c & Hf & Hc).
  destruct (H c "The process qmake failed with exit code 1")
    as (Hres & _ & toolRoot & Hout & Hpath);
    [rewrite Hf; left; reflexivity | exact Hc |].
  cbn [fst snd]. split; [exact Hres|].
  assert (Ho : outputs tr =
               [("qtdir", "/opt/hostedtoolcache/qt/5.15.2/gcc_64")]).
  { change tr with (snd (fst (res, tr, w'))). rewrite <- E.
    vm_compute. reflexivity. }
  rewrite Ho in Hout. injection Hout as <-.
  split; [exact Ho | exact Hpath].
Defined.
